(** * Gate.io adapter (js/gateio.js): response normalizers, request signer,
      error classifier.

    The adapter is a JavaScript class [gateio extends Exchange].  Its methods
    work on loosely typed JSON payloads, so the embedding keeps JavaScript's
    own data model: a dynamic [value] type, IEEE-754 binary64 numbers
    (Rocq's primitive floats), property lookup, truthiness and the numeric
    coercions the operators apply.  Methods that can throw return an
    [outcome]; asynchronous methods that talk to the exchange are functions
    on an explicit [exchange_state] that records every dispatched request. *)

From Stdlib Require Import PrimFloat Uint63 FloatOps SpecFloat FloatAxioms.
From Stdlib Require Import ZArith String Ascii List Bool Arith Lia.
From Stdlib Require Import DecimalString DecimalNat DecimalFacts.
Import ListNotations.

Set Warnings "-inexact-float,-register-all".
Set Implicit Arguments.

Open Scope list_scope.
Open Scope string_scope.

(** ** JavaScript values *)

(** An object lists its own properties in enumeration order
    ([Object.keys] order); keys are unique. *)
Inductive value : Type :=
| VUndefined
| VNull
| VBool (b : bool)
| VNum (x : float)
| VStr (s : string)
| VArr (elems : list value)
| VObj (props : list (string * value)).

Definition dict := list (string * value).

(** ** Errors *)

(** The error classes [gateio.js] imports from [./base/errors], the one the
    base class raises for missing credentials, and the two run-time errors
    of the language that the modelled code can hit.  [ThrownValue] stands
    for a thrown value that is no error object at all; the message is then
    the value as a string. *)
Inductive error_class :=
| ExchangeError | InvalidAddress | OrderNotFound | NotSupported
| DDoSProtection | InsufficientFunds
| AuthenticationError
| TypeError | SyntaxError
| ThrownValue.

(** [throw new C (message)] *)
Inductive exn := Raise (c : error_class) (message : string).


(** Modelled from the spec: the canonical error kinds of its error-handling
    section, which gives some classes of the code another name.  Rate
    limiting is [DDoSProtection] in the code, an unsupported operation is
    [NotSupported], an invalid address is [InvalidAddress]; the generic
    catch-all, [ExchangeError], keeps its name.  No class of the code stands
    for a configuration error. *)
Module Kind.
Inductive t :=
| ConfigurationError | AuthenticationError | RateLimited | UnsupportedOperation
| OrderNotFound | InsufficientFunds | InvalidAddressError | ExchangeError.
End Kind.

Definition kind_of (c : error_class) : option Kind.t :=
  match c with
  | ExchangeError => Some Kind.ExchangeError
  | InvalidAddress => Some Kind.InvalidAddressError
  | OrderNotFound => Some Kind.OrderNotFound
  | NotSupported => Some Kind.UnsupportedOperation
  | DDoSProtection => Some Kind.RateLimited
  | InsufficientFunds => Some Kind.InsufficientFunds
  | AuthenticationError => Some Kind.AuthenticationError
  | TypeError | SyntaxError | ThrownValue => None
  end.

Inductive outcome (A : Type) : Type :=
| Return (a : A)
| Throw (e : exn).
Arguments Return {A} a.
Arguments Throw {A} e.

Definition obind {A B} (c : outcome A) (k : A -> outcome B) : outcome B :=
  match c with
  | Return a => k a
  | Throw e => Throw e
  end.

Declare Scope js_scope.
Delimit Scope js_scope with js.
Notation "'let*' x ':=' c 'in' k" := (obind c (fun x => k))
  (at level 61, x pattern, c at next level, right associativity) : js_scope.
Open Scope js_scope.

(** Sequential loop that collects one result per element and stops at the
    first throw. *)
Fixpoint omap {A B} (f : A -> outcome B) (l : list A) : outcome (list B) :=
  match l with
  | [] => Return []
  | a :: l' =>
      let* b := f a in
      let* bs := omap f l' in
      Return (b :: bs)
  end.

(** ** Inherited properties

    What a plain object inherits from [Object.prototype] is a built-in
    function or, under two names, something else. *)
Inductive inherited :=
| BuiltinMethod    (* a built-in function, which is no constructor *)
| ObjectFunction   (* under [constructor]: the function [Object] *)
| PrototypeObject. (* under [__proto__]: [Object.prototype] itself *)

(** What [k in table] and [table[k]] find in a table that is a plain
    object: an own property, else an inherited one, else nothing. *)
Inductive slot (A : Type) : Type :=
| Own (a : A)
| Inherited (name : string) (i : inherited)
| Absent.
Arguments Own {A} a.
Arguments Inherited {A} name i.
Arguments Absent {A}.

(** The argument of a constructor call: a value of the data model, or one
    of the inherited built-ins. *)
Inductive argument :=
| Given (v : value)
| Builtin (name : string) (i : inherited).

(** ** Strings *)

Definition nat_to_string (n : nat) : string :=
  NilZero.string_of_uint (Nat.to_uint n).

(** [s.split (sep)] for a one-character separator. *)
Fixpoint split (sep : ascii) (s : string) : list string :=
  match s with
  | EmptyString => [EmptyString]
  | String c rest =>
      if Ascii.eqb c sep then EmptyString :: split sep rest
      else match split sep rest with
           | [] => [String c EmptyString]
           | p :: ps => String c p :: ps
           end
  end.

(** [s.split (sep, limit)] keeps the first [limit] parts. *)
Definition split_limit (sep : ascii) (limit : nat) (s : string) : list string :=
  firstn limit (split sep s).

(** [s.indexOf (sub) >= 0] *)
Fixpoint includes (sub s : string) : bool :=
  String.prefix sub s
  || match s with
     | EmptyString => false
     | String _ rest => includes sub rest
     end.

Definition chars (s : string) : list string :=
  map (fun c => String c EmptyString) (list_ascii_of_string s).

Definition is_digit (c : ascii) : bool :=
  let n := nat_of_ascii c in ((48 <=? n) && (n <=? 57))%nat.

Fixpoint digits_value (acc : nat) (s : string) : option nat :=
  match s with
  | EmptyString => Some acc
  | String c rest =>
      if is_digit c then digits_value (10 * acc + (nat_of_ascii c - 48))%nat rest
      else None
  end.

(** A property key that is a canonical array index ("0", "1", "2", ...). *)
Definition array_index (k : string) : option nat :=
  match k with
  | EmptyString => None
  | String "0" EmptyString => Some 0
  | String "0" _ => None
  | _ => digits_value 0 k
  end.

(** ** Numbers *)

Definition float_of_nat (n : nat) : float := PrimFloat.of_uint63 (Uint63.of_nat n).

Definition nan : float := PrimFloat.nan.

(** [Number.isFinite] *)
Definition isFinite (x : float) : bool :=
  negb (PrimFloat.is_nan x || PrimFloat.is_infinity x).

(** ** The language run-time

    Built-ins whose algorithms lie outside the adapter: conversion between
    numbers and their decimal text, exponentiation, JSON parsing and case
    mapping.  The adapter is verified for every run-time; [Sample.runtime]
    below is an executable instance. *)
Class Runtime := {
  (** [Number (s)], the coercion arithmetic applies to a string *)
  StringToNumber : string -> float;
  (** [String (x)] of a number *)
  NumberToString : float -> string;
  (** [parseFloat (s)] and [parseInt (s, 10)] of a string *)
  parseFloat_string : string -> float;
  parseInt_string : string -> float;
  (** [Math.pow (x, y)] *)
  Math_pow : float -> float -> float;
  (** [JSON.parse (s)]; [None] stands for the [SyntaxError] it throws *)
  JSON_parse : string -> option value;
  (** [s.toUpperCase ()] *)
  toUpperCase : string -> string;
}.

Section Language.
Context {rt : Runtime}.

(** [!!v] *)
Definition truthy (v : value) : bool :=
  match v with
  | VUndefined | VNull => false
  | VBool b => b
  | VNum x => negb (PrimFloat.is_zero x || PrimFloat.is_nan x)
  | VStr s => negb (String.eqb s "")
  | VArr _ | VObj _ => true
  end.

(** [typeof v !== 'undefined'] *)
Definition defined (v : value) : bool :=
  match v with
  | VUndefined => false
  | _ => true
  end.

(** [String (v)] *)
Fixpoint ToString (v : value) : string :=
  match v with
  | VUndefined => "undefined"
  | VNull => "null"
  | VBool true => "true"
  | VBool false => "false"
  | VNum x => NumberToString x
  | VStr s => s
  | VArr l =>
      String.concat ","
        (map (fun e => match e with
                       | VUndefined | VNull => ""
                       | _ => ToString e
                       end) l)
  | VObj _ => "[object Object]"
  end.

(** [Number (v)], applied by unary [+] and [-] and by [*], [/] and binary [-] *)
Definition ToNumber (v : value) : float :=
  match v with
  | VUndefined => nan
  | VNull => 0
  | VBool true => 1
  | VBool false => 0
  | VNum x => x
  | VStr s => StringToNumber s
  | VArr _ | VObj _ => StringToNumber (ToString v)
  end.

Definition js_neg (a : value) : value := VNum (- ToNumber a).
Definition js_sub (a b : value) : value := VNum (ToNumber a - ToNumber b).
Definition js_mul (a b : value) : value := VNum (ToNumber a * ToNumber b).
Definition js_div (a b : value) : value := VNum (ToNumber a / ToNumber b).

(** [parseFloat (v)]: the argument is converted to a string first. *)
Definition parseFloat (v : value) : value := VNum (parseFloat_string (ToString v)).

(** Own-property lookup in a dictionary. *)
Fixpoint lookup (k : string) (o : dict) : option value :=
  match o with
  | [] => None
  | (k', v) :: o' => if String.eqb k' k then Some v else lookup k o'
  end.

Definition has_key (k : string) (o : dict) : bool :=
  match lookup k o with Some _ => true | None => false end.

(** [o[k] = v]: overwrite in place, or append a new property. *)
Fixpoint assign (k : string) (v : value) (o : dict) : dict :=
  match o with
  | [] => [(k, v)]
  | (k', v') :: o' =>
      if String.eqb k' k then (k', v) :: o' else (k', v') :: assign k v o'
  end.

(** The value of [v[k]] when [v] is neither [undefined] nor [null]. *)
Definition member (v : value) (k : string) : value :=
  match v with
  | VObj o => match lookup k o with Some x => x | None => VUndefined end
  | VArr l =>
      if String.eqb k "length" then VNum (float_of_nat (List.length l))
      else match array_index k with
           | Some i => nth i l VUndefined
           | None => VUndefined
           end
  | VStr s =>
      if String.eqb k "length" then VNum (float_of_nat (String.length s))
      else match array_index k with
           | Some i => nth i (map VStr (chars s)) VUndefined
           | None => VUndefined
           end
  | _ => VUndefined
  end.

(** [v[k]]: a [TypeError] on [undefined] and [null]. *)
Definition js_get (v : value) (k : string) : outcome value :=
  match v with
  | VUndefined | VNull => Throw (Raise TypeError "Cannot read properties")
  | _ => Return (member v k)
  end.

(** [k in v]: a [TypeError] unless [v] is an object. *)
Definition js_in (k : string) (v : value) : outcome bool :=
  match v with
  | VObj o => Return (has_key k o)
  | VArr l =>
      Return (String.eqb k "length"
              || match array_index k with
                 | Some i => Nat.ltb i (List.length l)
                 | None => false
                 end)
  | _ => Throw (Raise TypeError "Cannot use 'in' operator")
  end.

(** [Object.keys (v)] *)
Definition Object_keys (v : value) : outcome (list string) :=
  match v with
  | VUndefined | VNull =>
      Throw (Raise TypeError "Cannot convert undefined or null to object")
  | VObj o => Return (map fst o)
  | VArr l => Return (map nat_to_string (seq 0 (List.length l)))
  | VStr s => Return (map nat_to_string (seq 0 (String.length s)))
  | _ => Return []
  end.

(** The elements a loop [for (i = 0; i < v.length; i++)] reads as [v[i]].
    For a plain object the walk stops at the first absent index at the
    latest, since the loop bodies below throw on an [undefined] element;
    an object with [n] properties has an absent index among [0 .. n]. *)
Fixpoint walk (v : value) (len : float) (fuel i : nat) : list value :=
  match fuel with
  | O => []
  | S fuel' =>
      if PrimFloat.ltb (float_of_nat i) len
      then member v (nat_to_string i) :: walk v len fuel' (S i)
      else []
  end.

Definition elements (v : value) : list value :=
  match v with
  | VArr l => l
  | VStr s => map VStr (chars s)
  | VObj o => walk v (ToNumber (member v "length")) (S (List.length o)) 0
  | _ => []
  end.

End Language.

(** ** The exchange instance and its asynchronous methods *)

(** A request handed to the transport. *)
Record dispatch := {
  rq_path : string;
  rq_api : string;
  rq_method : string;
  rq_params : value;
}.

(** The fields of [this] the adapter reads, the clock, and the requests
    dispatched so far (newest first). *)
Record exchange_state := {
  markets : value;
  markets_by_id : value;
  currencies : value;
  apiKey : value;
  secret : value;
  clock : float;
  wire : list dispatch;
}.

(** An asynchronous method: it may read and change the state, and it
    resolves to a value or rejects with an error. *)
Definition M (A : Type) : Type := exchange_state -> outcome A * exchange_state.

Definition ret {A} (a : A) : M A := fun w => (Return a, w).
Definition throw {A} (e : exn) : M A := fun w => (Throw e, w).
Definition lift {A} (c : outcome A) : M A := fun w => (c, w).
Definition gets {A} (f : exchange_state -> A) : M A := fun w => (Return (f w), w).

Definition bind {A B} (c : M A) (k : A -> M B) : M B :=
  fun w =>
    match c w with
    | (Return a, w') => k a w'
    | (Throw e, w') => (Throw e, w')
    end.

Notation "x <- c ;; k" := (bind c (fun x => k))
  (at level 100, c at next level, right associativity) : js_scope.
Notation "c ;;; k" := (bind c (fun _ => k))
  (at level 100, right associativity) : js_scope.

(** ** The base class

    [gateio] extends [Exchange], whose source is not part of [gateio.js].  The
    collaborators whose result depends on configuration, on the network or
    on algorithms of their own are taken as an interface; formatting and
    parsing utilities are total functions. *)
Class Exchange := {
  (** currency-code canonicalizer *)
  commonCurrencyCode : string -> string;
  (** date text to milliseconds, and back *)
  parse8601 : value -> value;
  iso8601 : value -> value;
  (** [JSON.stringify] wrapper *)
  json : value -> string;
  (** URL-encoding of a dictionary *)
  urlencode : dict -> string;
  (** [hmac (message, key, hash)], hex digest *)
  hmac : value -> value -> string -> value;
  encode : value -> value;
  (** path templates: [implodeParams] substitutes [{name}] placeholders,
      [extractParams] lists their names *)
  implodeParams : string -> value -> string;
  extractParams : string -> list string;
  (** the nonce source *)
  nonce : exchange_state -> value * exchange_state;
  (** registries *)
  loadMarkets : M unit;
  market : value -> M value;
  currency : value -> M value;
  (** the network round trip behind [fetch2] *)
  transport : dispatch -> M value;
  (** list normalizers of the base class; they call back into the
      per-record normalizer of the subclass *)
  parseTrades :
    (value -> value -> outcome value) -> value -> value -> value -> value -> outcome value;
  parseBalance : value -> value;
  sortBy : list value -> string -> list value;
  filterBySinceLimit : list value -> value -> value -> value;
}.

Section Gateio.
Context {rt : Runtime} {self : Exchange}.

(** *** Helpers of the base class *)

(** [prop (o, k)]: [o[k]] when [o] is an object, else [undefined]. *)
Definition prop (o : value) (k : string) : value :=
  match o with
  | VObj _ | VArr _ => member o k
  | _ => VUndefined
  end.

(** Modelled from the spec: the generic accessor of the base class, absent
    from [gateio.js]; it yields the field when it is there and the default
    otherwise. *)
Definition safeValue (o : value) (k : string) (dflt : value) : value :=
  match prop o k with
  | VUndefined | VNull => dflt
  | x => x
  end.

(** Modelled from the spec: the string accessor of the base class, absent from
    [gateio.js]; a string field is read as it is, a numeric field as its
    decimal text, and anything else falls back to the default. *)
Definition safeString (o : value) (k : string) (dflt : value) : value :=
  match prop o k with
  | VStr s => VStr s
  | VNum x => if isFinite x then VStr (NumberToString x) else dflt
  | _ => dflt
  end.

(** Modelled from the spec: the numeric accessors of the base class, absent
    from [gateio.js]; numeric fields tolerate missing and non-numeric input by
    falling back to the default instead of throwing. *)
Definition safeFloat (o : value) (k : string) (dflt : value) : value :=
  match prop o k with
  | VNum x => if isFinite x then VNum x else dflt
  | VStr s =>
      let x := parseFloat_string s in
      if isFinite x then VNum x else dflt
  | _ => dflt
  end.

Definition safeInteger (o : value) (k : string) (dflt : value) : value :=
  match prop o k with
  | VNum x =>
      let n := parseInt_string (NumberToString x) in
      if isFinite n then VNum n else dflt
  | VStr s =>
      let n := parseInt_string s in
      if isFinite n then VNum n else dflt
  | _ => dflt
  end.

(** Modelled from the spec: [sum] of the base class, absent from [gateio.js];
    the arithmetic sum of its two arguments. *)
Definition sum (a b : value) : value := VNum (ToNumber a + ToNumber b).


(** The own enumerable properties of a value. *)
Definition own_props (v : value) : dict :=
  match v with
  | VObj o => o
  | VArr l => combine (map nat_to_string (seq 0 (List.length l))) l
  | VStr s => combine (map nat_to_string (seq 0 (String.length s))) (map VStr (chars s))
  | _ => []
  end.

(** Modelled from the spec: [extend (a, b)] of the base class, absent from
    [gateio.js]; a fresh object with the properties of [a], then those of [b]
    written over them. *)
Definition extend (a b : value) : value :=
  VObj (fold_left (fun acc kv => assign (fst kv) (snd kv) acc) (own_props b) (own_props a)).

(** Modelled from the spec: [omit (o, keys)] of the base class, absent from
    [gateio.js]; [o] without the properties named in [keys]. *)
Definition omit (o : value) (keys : list string) : value :=
  VObj (filter (fun kv => negb (existsb (String.eqb (fst kv)) keys)) (own_props o)).

(** Modelled from the spec: the clock of the base class; the timestamp of a
    ticker is its capture time. *)
Definition milliseconds : M value := gets (fun w => VNum (clock w)).

(** *** [describe ()] *)

Definition id : string := "gateio".
Definition version : string := "2".

Definition urls_api : dict :=
  [("public", VStr "https://data.gate.io/api");
   ("private", VStr "https://data.gate.io/api")].

Definition exceptions : list (string * error_class) :=
  [("4", DDoSProtection);
   ("7", NotSupported);
   ("8", NotSupported);
   ("9", NotSupported);
   ("15", DDoSProtection);
   ("16", OrderNotFound);
   ("17", OrderNotFound);
   ("21", InsufficientFunds)].

Definition errorCodeNames : list (string * string) :=
  [("1", "Invalid request");
   ("2", "Invalid version");
   ("3", "Invalid request");
   ("4", "Too many attempts");
   ("5", "Invalid sign");
   ("6", "Invalid sign");
   ("7", "Currency is not supported");
   ("8", "Currency is not supported");
   ("9", "Currency is not supported");
   ("10", "Verified failed");
   ("11", "Obtaining address failed");
   ("12", "Empty params");
   ("13", "Internal error, please report to administrator");
   ("14", "Invalid user");
   ("15", "Cancel order too fast, please wait 1 min and try again");
   ("16", "Invalid order id or order is already closed");
   ("17", "Invalid orderid");
   ("18", "Invalid amount");
   ("19", "Not permitted or trade is disabled");
   ("20", "Your order size is too small");
   ("21", "You don't have enough fund")].

(** [this.options['limits']['cost']['min']] *)
Definition options_limits_cost_min : value :=
  VObj [("BTC", VNum 0.0001); ("ETH", VNum 0.001); ("USDT", VNum 1)].

(** Lookup among the own properties of a table keyed by strings. *)
Fixpoint table_get {A} (k : string) (t : list (string * A)) : option A :=
  match t with
  | [] => None
  | (k', a) :: t' => if String.eqb k' k then Some a else table_get k t'
  end.

(** *** Properties a plain object inherits

    The tables [this.exceptions] and [this.errorCodeNames] are plain
    objects.  Besides their own properties, the operator [in] and a
    property read see the properties every object inherits from
    [Object.prototype], listed here in the order the run-time has them. *)
Definition Object_prototype : list (string * inherited) :=
  [("constructor", ObjectFunction);
   ("__defineGetter__", BuiltinMethod);
   ("__defineSetter__", BuiltinMethod);
   ("hasOwnProperty", BuiltinMethod);
   ("__lookupGetter__", BuiltinMethod);
   ("__lookupSetter__", BuiltinMethod);
   ("isPrototypeOf", BuiltinMethod);
   ("propertyIsEnumerable", BuiltinMethod);
   ("toString", BuiltinMethod);
   ("valueOf", BuiltinMethod);
   ("__proto__", PrototypeObject);
   ("toLocaleString", BuiltinMethod)].

Definition table_read {A} (k : string) (t : list (string * A)) : slot A :=
  match table_get k t with
  | Some a => Own a
  | None =>
      match table_get k Object_prototype with
      | Some i => Inherited k i
      | None => Absent
      end
  end.

(** [v === 'literal'] *)
Definition is_string (v : value) (lit : string) : bool :=
  match v with
  | VStr s => String.eqb s lit
  | _ => false
  end.

(** A method call on a string receiver ([s.split], [s.toUpperCase],
    [s.indexOf]): a [TypeError] when the receiver is not a string. *)
Definition receiver (v : value) : outcome string :=
  match v with
  | VStr s => Return s
  | _ => Throw (Raise TypeError "Cannot read properties")
  end.

(** [xs[i]] on a list of strings *)
Definition at_index (xs : list string) (i : nat) : value :=
  match nth_error xs i with
  | Some s => VStr s
  | None => VUndefined
  end.


(** *** Request dispatch *)

Definition sent (rq : dispatch) (w : exchange_state) : exchange_state :=
  {| markets := markets w; markets_by_id := markets_by_id w;
     currencies := currencies w; apiKey := apiKey w; secret := secret w;
     clock := clock w; wire := rq :: wire w |}.

(** Modelled from the spec: [fetch2] of the base class, absent from
    [gateio.js]; each call issues exactly one outbound request and awaits its
    response. *)
Definition fetch2 (path api method : string) (params headers body : value) : M value :=
  let rq := {| rq_path := path; rq_api := api; rq_method := method; rq_params := params |} in
  fun w => transport rq (sent rq w).

(** [request] (the override at the end of the class) *)
Definition request (path api method : string) (params headers body : value) : M value :=
  response <- fetch2 path api method params headers body ;;
  has_result <- lift (js_in "result" response) ;;
  if has_result : bool then
    let result := member response "result" in
    let message := id ++ " " ++ json response in
    if negb (defined result) then throw (Raise ExchangeError message)
    else match result with
         | VStr r =>
             if negb (String.eqb r "true") then throw (Raise ExchangeError message)
             else ret response
         | _ =>
             if negb (truthy result) then throw (Raise ExchangeError message)
             else ret response
         end
  else ret response.

(** The endpoint methods the base class generates from the [api] table of
    [describe ()]: name, path, access, HTTP verb. *)
Definition api_table : list (string * (string * string * string)) :=
  [("publicGetPairs", ("pairs", "public", "GET"));
   ("publicGetMarketinfo", ("marketinfo", "public", "GET"));
   ("publicGetMarketlist", ("marketlist", "public", "GET"));
   ("publicGetTickers", ("tickers", "public", "GET"));
   ("publicGetTickerId", ("ticker/{id}", "public", "GET"));
   ("publicGetOrderBookId", ("orderBook/{id}", "public", "GET"));
   ("publicGetTradeId", ("trade/{id}", "public", "GET"));
   ("publicGetTradeHistoryId", ("tradeHistory/{id}", "public", "GET"));
   ("publicGetTradeHistoryIdTid", ("tradeHistory/{id}/{tid}", "public", "GET"));
   ("privatePostBalances", ("balances", "private", "POST"));
   ("privatePostDepositAddress", ("depositAddress", "private", "POST"));
   ("privatePostNewAddress", ("newAddress", "private", "POST"));
   ("privatePostDepositsWithdrawals", ("depositsWithdrawals", "private", "POST"));
   ("privatePostBuy", ("buy", "private", "POST"));
   ("privatePostSell", ("sell", "private", "POST"));
   ("privatePostCancelOrder", ("cancelOrder", "private", "POST"));
   ("privatePostCancelAllOrders", ("cancelAllOrders", "private", "POST"));
   ("privatePostGetOrder", ("getOrder", "private", "POST"));
   ("privatePostOpenOrders", ("openOrders", "private", "POST"));
   ("privatePostTradeHistory", ("tradeHistory", "private", "POST"));
   ("privatePostWithdraw", ("withdraw", "private", "POST"))].

(** [this[name] (params)] *)
Definition call (name : string) (params : value) : M value :=
  match table_get name api_table with
  | Some (path, access, verb) => request path access verb params VUndefined VUndefined
  | None => throw (Raise TypeError "this[method] is not a function")
  end.

Definition publicGetMarketinfo := call "publicGetMarketinfo".
Definition privatePostTradeHistory := call "privatePostTradeHistory".

(** *** [fetchMarkets] *)

(** The body of the loop, for the element [markets[i]]. *)
Definition fetchMarkets_entry (market : value) : outcome value :=
  let* keys := Object_keys market in
  let id := at_index keys 0 in
  let* details := js_get market (ToString id) in
  let* id_string := receiver id in
  let parts := split "_" id_string in
  let* base := receiver (at_index parts 0) in
  let* quote := receiver (at_index parts 1) in
  let base := toUpperCase base in
  let quote := toUpperCase quote in
  let base := commonCurrencyCode base in
  let quote := commonCurrencyCode quote in
  let symbol := base ++ "/" ++ quote in
  let* decimal_places := js_get details "decimal_places" in
  let precision := VObj [("amount", VNum 8); ("price", decimal_places)] in
  let* min_amount := js_get details "min_amount" in
  let amountLimits := VObj [("min", min_amount); ("max", VUndefined)] in
  let priceLimits :=
    VObj [("min", VNum (Math_pow 10 (ToNumber (js_neg decimal_places))));
          ("max", VUndefined)] in
  let defaultCost := js_mul (member amountLimits "min") (member priceLimits "min") in
  let minCost := safeFloat options_limits_cost_min quote defaultCost in
  let costLimits := VObj [("min", minCost); ("max", VUndefined)] in
  let limits :=
    VObj [("amount", amountLimits); ("price", priceLimits); ("cost", costLimits)] in
  let* fee := js_get details "fee" in
  Return (VObj [("id", id);
                ("symbol", VStr symbol);
                ("base", VStr base);
                ("quote", VStr quote);
                ("info", market);
                ("maker", js_div fee (VNum 100));
                ("taker", js_div fee (VNum 100));
                ("precision", precision);
                ("limits", limits)]).

Definition fetchMarkets : M value :=
  response <- publicGetMarketinfo (VObj []) ;;
  let markets := safeValue response "pairs" VUndefined in
  if negb (truthy markets)
  then throw (Raise ExchangeError (id ++ " fetchMarkets got an unrecognized response"))
  else
    result <- lift (omap fetchMarkets_entry (elements markets)) ;;
    ret (VArr result).

(** *** [fetchBalance] *)



(** *** [parseTicker] *)

Definition parseTicker (ticker market : value) : M value :=
  timestamp <- milliseconds ;;
  symbol <- lift (if truthy market then js_get market "symbol" else Return VUndefined) ;;
  let last := safeFloat ticker "last" VUndefined in
  let percentage := safeFloat ticker "percentChange" VUndefined in
  let '(open, change, average) :=
    if defined last && defined percentage then
      let relativeChange := js_div percentage (VNum 100) in
      let open := js_div last (sum (VNum 1) relativeChange) in
      let change := js_sub last open in
      let average := js_div (sum last open) (VNum 2) in
      (open, change, average)
    else (VUndefined, VUndefined, VUndefined) in
  ret (VObj [("symbol", symbol);
             ("timestamp", timestamp);
             ("datetime", iso8601 timestamp);
             ("high", safeFloat ticker "high24hr" VUndefined);
             ("low", safeFloat ticker "low24hr" VUndefined);
             ("bid", safeFloat ticker "highestBid" VUndefined);
             ("bidVolume", VUndefined);
             ("ask", safeFloat ticker "lowestAsk" VUndefined);
             ("askVolume", VUndefined);
             ("vwap", VUndefined);
             ("open", open);
             ("close", last);
             ("last", last);
             ("previousClose", VUndefined);
             ("change", change);
             ("percentage", percentage);
             ("average", average);
             ("baseVolume", safeFloat ticker "quoteVolume" VUndefined);
             ("quoteVolume", safeFloat ticker "baseVolume" VUndefined);
             ("info", ticker)]).

(** *** [handleErrors] *)

(** [String (a)] *)
Definition argument_text (a : argument) : string :=
  match a with
  | Given v => ToString v
  | Builtin _ PrototypeObject => "[object Object]"
  | Builtin _ ObjectFunction => "function Object() { [native code] }"
  | Builtin name BuiltinMethod => "function " ++ name ++ "() { [native code] }"
  end.

(** [throw new C (message)], for what [exceptions[errorCode]] read as [C]:
    an error class of the table makes an error with the message; the
    function [Object] makes no error but an object of its argument (the
    argument itself when that is an object already), which is thrown as it
    is; anything else is no constructor. *)
Definition throw_new {A} (C : slot error_class) (message : argument) : outcome A :=
  match C with
  | Own exception => Throw (Raise exception (argument_text message))
  | Inherited _ ObjectFunction =>
      Throw (Raise ThrownValue
                   match message with
                   | Given VUndefined | Given VNull => "[object Object]"
                   | _ => argument_text message
                   end)
  | Inherited _ _ | Absent =>
      Throw (Raise TypeError "exceptions[errorCode] is not a constructor")
  end.

Definition handleErrors (code reason url method headers : value) (body : string)
  : outcome unit :=
  if Nat.leb (String.length body) 0 then Return tt
  else if negb (is_string (member (VStr body) "0") "{") then Return tt
  else
    match JSON_parse body with
    | None => Throw (Raise SyntaxError "Unexpected token in JSON")
    | Some jsonbodyParsed =>
        let resultString := safeString jsonbodyParsed "result" (VStr "") in
        if negb (is_string resultString "false") then Return tt
        else
          let errorCode := safeString jsonbodyParsed "code" VUndefined in
          if defined errorCode then
            match table_read (ToString errorCode) exceptions with
            | Absent => Return tt
            | found =>
                let message :=
                  match table_read (ToString errorCode) errorCodeNames with
                  | Own name => Given (VStr name)
                  | Inherited name i => Builtin name i
                  | Absent => Given (safeString jsonbodyParsed "message" (VStr "(unknown)"))
                  end in
                throw_new found message
            end
          else Return tt
    end.

(** *** [parseTrade] and [parseMyTrade] *)

Definition parseTrade (trade market : value) : outcome value :=
  (* exchange reports local time (UTC+8) *)
  let* date := js_get trade "date" in
  let timestamp := js_sub (parse8601 date) (VNum (8 * 60 * 60 * 1000)) in
  let* tradeID := js_get trade "tradeID" in
  let* symbol := js_get market "symbol" in
  let* type := js_get trade "type" in
  Return (VObj [("id", tradeID);
                ("info", trade);
                ("timestamp", timestamp);
                ("datetime", iso8601 timestamp);
                ("symbol", symbol);
                ("type", VUndefined);
                ("side", type);
                ("price", safeFloat trade "rate" VUndefined);
                ("amount", safeFloat trade "amount" VUndefined)]).

Definition parseMyTrade (trade market : value) : outcome value :=
  let* time_unix := js_get trade "time_unix" in
  let ts := js_mul (VNum (ToNumber time_unix)) (VNum 1000) in
  let* tradeID := js_get trade "tradeID" in
  let* orderNumber := js_get trade "orderNumber" in
  let* symbol := js_get market "symbol" in
  let* type := js_get trade "type" in
  let* rate := js_get trade "rate" in
  Return (VObj [("id", tradeID);
                ("order", orderNumber);
                ("info", trade);
                ("timestamp", ts);
                ("datetime", iso8601 ts);
                ("symbol", symbol);
                ("type", VUndefined);
                ("side", type);
                ("price", parseFloat rate);
                ("amount", safeFloat trade "amount" VUndefined)]).

(** *** [parseOrder] *)

Definition parseOrder (order market : value) : outcome value :=
  let timestamp := js_mul (safeInteger order "timestamp" VUndefined) (VNum 1000) in
  let* symbol := js_get market "symbol" in
  let amount := safeFloat order "initialAmount" VUndefined in
  let amount := if negb (truthy amount) then safeFloat order "amount" VUndefined else amount in
  let price := safeFloat order "initialRate" VUndefined in
  let price := if negb (truthy price) then safeFloat order "rate" VUndefined else price in
  let filled := safeFloat order "filledAmount" VUndefined in
  let feePercentage := safeFloat order "feePercentage" VUndefined in
  let* orderNumber := js_get order "orderNumber" in
  let* status := js_get order "status" in
  let* type := js_get order "type" in
  let* fee :=
    if truthy feePercentage then
      let* base := js_get market "base" in
      Return (VObj [("currency", base);
                    ("value", js_div (js_mul amount feePercentage) (VNum 100))])
    else Return VUndefined in
  Return (VObj [("info", order);
                ("id", orderNumber);
                ("timestamp", timestamp);
                ("datetime", iso8601 timestamp);
                ("status", status);
                ("symbol", symbol);
                ("type", VStr "limit");
                ("side", type);
                ("price", price);
                ("cost", VUndefined);
                ("amount", amount);
                ("filled", filled);
                ("average", safeFloat order "filledRate" VUndefined);
                ("remaining", js_sub amount filled);
                ("trades", VUndefined);
                ("fee", fee)]).

(** *** [fetchMyTrades]

    The class body defines [fetchMyTrades] twice.  A later method definition
    of a class body replaces an earlier one of the same name, so the method
    of the class is the last of the two. *)

(** the first definition *)
Definition fetchMyTrades_1 (symbol since limit params : value) : M value :=
  loadMarkets ;;;
  market <- market symbol ;;
  id <- lift (js_get market "id") ;;
  let request := VObj [("currencyPair", id)] in (* parameter currencyPair is required *)
  response <- privatePostTradeHistory (extend request params) ;;
  trades <- lift (js_get response "trades") ;;
  let trades := if truthy trades then trades else VArr [] in
  result <- lift (omap (fun trade => parseMyTrade trade market) (map snd (own_props trades))) ;;
  let result := sortBy result "timestamp" in
  ret (filterBySinceLimit result since limit).

(** the second definition *)
Definition fetchMyTrades_2 (symbol since limit params : value) : M value :=
  if negb (defined symbol)
  then throw (Raise ExchangeError (id ++ " fetchMyTrades requires symbol param"))
  else
    loadMarkets ;;;
    market <- market symbol ;;
    id <- lift (js_get market "id") ;;
    response <- privatePostTradeHistory (extend (VObj [("currencyPair", id)]) params) ;;
    trades <- lift (js_get response "trades") ;;
    lift (parseTrades parseTrade trades market since limit).

Definition fetchMyTrades : value -> value -> value -> value -> M value :=
  last [fetchMyTrades_1; fetchMyTrades_2] fetchMyTrades_1.

(** *** [queryDepositAddress] *)

Definition queryDepositAddress (method : string) (code params : value) : M value :=
  loadMarkets ;;;
  currency <- currency code ;;
  let method := "privatePost" ++ method ++ "Address" in
  currency_id <- lift (js_get currency "id") ;;
  response <- call method (extend (VObj [("currency", currency_id)]) params) ;;
  let address := safeString response "addr" VUndefined in
  let tag := VUndefined in
  if defined address && includes "address" (ToString address)
  then throw (Raise InvalidAddress (id ++ " queryDepositAddress " ++ ToString address))
  else
    parts <- lift (if is_string code "XRP"
                   then let* a := receiver address in
                        let parts := split_limit "/" 2 a in
                        Return (at_index parts 0, at_index parts 1)
                   else Return (address, tag)) ;;
    let '(address, tag) := parts in
    ret (VObj [("currency", currency);
               ("address", address);
               ("tag", tag);
               ("status", if defined address then VStr "ok" else VStr "none");
               ("info", response)]).

Definition createDepositAddress (code params : value) : M value :=
  queryDepositAddress "New" code params.

Definition fetchDepositAddress (code params : value) : M value :=
  queryDepositAddress "Deposit" code params.

(** *** [sign] *)

(** Modelled from the spec: [checkRequiredCredentials] of the base class,
    absent from [gateio.js]; it fails with [AuthenticationError] when the API
    key or the secret is not configured. *)
Definition checkRequiredCredentials : M unit :=
  fun w =>
    if negb (truthy (apiKey w))
    then (Throw (Raise AuthenticationError (id ++ " requires `apiKey`")), w)
    else if negb (truthy (secret w))
    then (Throw (Raise AuthenticationError (id ++ " requires `secret`")), w)
    else (Return tt, w).

Definition sign (path api : string) (method params headers body : value) : M value :=
  let prefix := if String.eqb api "private" then api ++ "/" else "" in
  let url :=
    ToString (member (VObj urls_api) api) ++ version ++ "/1/" ++ prefix
    ++ implodeParams path params in
  let query := omit params (extractParams path) in
  if String.eqb api "public" then
    let url :=
      if negb (Nat.eqb (List.length (own_props query)) 0)
      then url ++ "?" ++ urlencode (own_props query)
      else url in
    ret (VObj [("url", VStr url); ("method", method); ("body", body); ("headers", headers)])
  else
    checkRequiredCredentials ;;;
    nonce <- (fun w => let (n, w') := nonce w in (Return n, w')) ;;
    let request := VObj [("nonce", nonce)] in
    let body := VStr (urlencode (own_props (extend request query))) in
    secret <- gets secret ;;
    let signature := hmac (encode body) (encode secret) "sha512" in
    key <- gets apiKey ;;
    let headers :=
      VObj [("Key", key);
            ("Sign", signature);
            ("Content-Type", VStr "application/x-www-form-urlencoded")] in
    ret (VObj [("url", VStr url); ("method", method); ("body", body); ("headers", headers)]).

End Gateio.

(** ** The remaining methods of the class *)

(** Further collaborators of the base class, and one more built-in of the
    language, that the remaining methods call. *)
Class Trading := {
  (** [this.marketId (symbol)] *)
  marketId : value -> M value;
  (** [this.checkAddress (address)]; it throws on an address it rejects *)
  checkAddress : value -> outcome unit;
  (** [this.capitalize (s)] *)
  capitalize : string -> string;
  (** [s.toLowerCase ()] *)
  toLowerCase : string -> string;
  (** list and book normalizers of the base class; [parseOrders] calls back
      into the per-record normalizer of the subclass *)
  parseOrders :
    (value -> value -> outcome value) -> value -> value -> value -> value -> outcome value;
  parseOrderBook : value -> outcome value;
  filterBySymbol : value -> value -> value;
}.

Section Methods.
Context {rt : Runtime} {self : Exchange} {more : Trading}.

Definition publicGetTickers := call "publicGetTickers".
Definition publicGetTickerId := call "publicGetTickerId".
Definition publicGetOrderBookId := call "publicGetOrderBookId".
Definition publicGetTradeHistoryId := call "publicGetTradeHistoryId".
Definition privatePostOpenOrders := call "privatePostOpenOrders".
Definition privatePostGetOrder := call "privatePostGetOrder".
Definition privatePostCancelOrder := call "privatePostCancelOrder".
Definition privatePostWithdraw := call "privatePostWithdraw".

(** Sequential loop over asynchronous steps that threads an accumulator
    and stops at the first rejection. *)
Fixpoint mfold {A B} (f : A -> B -> M A) (l : list B) (a : A) : M A :=
  match l with
  | [] => ret a
  | b :: l' => a' <- f a b ;; mfold f l' a'
  end.

(** *** [fetchOrderBook] *)

Definition fetchOrderBook (symbol limit params : value) : M value :=
  loadMarkets ;;;
  id <- marketId symbol ;;
  orderbook <- publicGetOrderBookId (extend (VObj [("id", id)]) params) ;;
  lift (parseOrderBook orderbook).

(** *** [fetchTickers] *)

(** The body of the loop, for the key [id] of the response. *)
Definition fetchTickers_entry (tickers : value) (result : dict) (id : string) : M dict :=
  let parts := split "_" id in
  baseId <- lift (receiver (at_index parts 0)) ;;
  let base := toUpperCase baseId in
  quoteId <- lift (receiver (at_index parts 1)) ;;
  let quote := toUpperCase quoteId in
  let base := commonCurrencyCode base in
  let quote := commonCurrencyCode quote in
  let symbol := base ++ "/" ++ quote in
  ticker <- lift (js_get tickers id) ;;
  let market := VUndefined in
  by_symbol <- gets markets ;;
  listed <- lift (js_in symbol by_symbol) ;;
  let market := if listed : bool then member by_symbol symbol else market in
  by_id <- gets markets_by_id ;;
  listed <- lift (js_in id by_id) ;;
  let market := if listed : bool then member by_id id else market in
  ticker <- parseTicker ticker market ;;
  ret (assign symbol ticker result).

Definition fetchTickers (symbols params : value) : M value :=
  loadMarkets ;;;
  tickers <- publicGetTickers params ;;
  ids <- lift (Object_keys tickers) ;;
  result <- mfold (fetchTickers_entry tickers) ids [] ;;
  ret (VObj result).

(** *** [fetchTicker] *)

Definition fetchTicker (symbol params : value) : M value :=
  loadMarkets ;;;
  market <- market symbol ;;
  id <- lift (js_get market "id") ;;
  ticker <- publicGetTickerId (extend (VObj [("id", id)]) params) ;;
  parseTicker ticker market.

(** *** [fetchTrades] *)

Definition fetchTrades (symbol since limit params : value) : M value :=
  loadMarkets ;;;
  market <- market symbol ;;
  id <- lift (js_get market "id") ;;
  response <- publicGetTradeHistoryId (extend (VObj [("id", id)]) params) ;;
  data <- lift (js_get response "data") ;;
  lift (parseTrades parseTrade data market since limit).

(** *** [fetchOpenOrders]

    Defined twice in the class body, like [fetchMyTrades]; the method of the
    class is the second definition. *)

(** the first definition *)
Definition fetchOpenOrders_1 (symbol since limit params : value) : M value :=
  loadMarkets ;;;
  let request := VObj [] in
  market <- (if truthy symbol then market symbol else ret VUndefined) ;;
  response <- privatePostOpenOrders (extend request params) ;;
  orders <- lift (js_get response "orders") ;;
  orders <- lift (parseOrders parseOrder orders market since limit) ;;
  ret (filterBySymbol orders symbol).

(** the second definition *)
Definition fetchOpenOrders_2 (symbol since limit params : value) : M value :=
  loadMarkets ;;;
  market <- (if defined symbol then market symbol else ret VUndefined) ;;
  response <- privatePostOpenOrders (VObj []) ;;
  orders <- lift (js_get response "orders") ;;
  lift (parseOrders parseOrder orders market since limit).

Definition fetchOpenOrders : value -> value -> value -> value -> M value :=
  last [fetchOpenOrders_1; fetchOpenOrders_2] fetchOpenOrders_1.

(** *** [fetchOrder] *)

Definition fetchOrder (id symbol params : value) : M value :=
  loadMarkets ;;;
  market <- market symbol ;;
  currencyPair <- lift (js_get market "id") ;;
  let request := VObj [("orderNumber", id); ("currencyPair", currencyPair)] in
  response <- privatePostGetOrder (extend request params) ;;
  order <- lift (js_get response "order") ;;
  lift (parseOrder order market).

(** *** [createOrder] *)

Definition createOrder (symbol type : value) (side : string) (amount price params : value)
  : M value :=
  if is_string type "market"
  then throw (Raise ExchangeError (id ++ " allows limit orders only"))
  else
    loadMarkets ;;;
    let method := "privatePost" ++ capitalize side in
    market <- market symbol ;;
    currencyPair <- lift (js_get market "id") ;;
    let order := VObj [("currencyPair", currencyPair); ("rate", price); ("amount", amount)] in
    response <- call method (extend order params) ;;
    lift (parseOrder
            (extend (VObj [("status", VStr "open");
                           ("type", VStr side);
                           ("initialAmount", amount)])
                    response)
            market).

(** *** [cancelOrder] *)

Definition cancelOrder (id symbol params : value) : M value :=
  loadMarkets ;;;
  currencyPair <- marketId symbol ;;
  privatePostCancelOrder (VObj [("orderNumber", id); ("currencyPair", currencyPair)]).

(** *** [withdraw] *)

Definition withdraw (currency amount address tag params : value) : M value :=
  lift (checkAddress address) ;;;
  loadMarkets ;;;
  currency <- lift (receiver currency) ;;
  response <-
    privatePostWithdraw
      (extend (VObj [("currency", VStr (toLowerCase currency));
                     ("amount", amount);
                     (* Address must exist in you AddressBook in security settings *)
                     ("address", address)])
              params) ;;
  ret (VObj [("info", response); ("id", VUndefined)]).

End Methods.

(** ** The vocabulary of the properties

    Notions the properties below are stated with; they describe inputs and
    expected outputs and are not part of the adapter. *)

Section Vocabulary.
Context {rt : Runtime} {self : Exchange}.

(** A field that is present and numeric: a finite number, or text that
    reads as one. *)
Definition numeric (o : value) (k : string) : bool :=
  match prop o k with
  | VNum x => isFinite x
  | VStr s => isFinite (parseFloat_string s)
  | _ => false
  end.

Definition nullish (v : value) : bool :=
  match v with
  | VUndefined | VNull => true
  | _ => false
  end.




(** The raw amount a balance response lists for a currency under one of
    its legs ("available", "locked"). *)
Definition listed (balance : value) (leg currency : string) : option value :=
  match balance with
  | VObj o =>
      match lookup leg o with
      | Some (VObj amounts) => lookup currency amounts
      | _ => None
      end
  | _ => None
  end.



(** A response object that [request] lets through: it has no [result], or
    its [result] is the text "true", or a value other than text that is
    truthy. *)
Definition result_accepted (o : dict) : bool :=
  match lookup "result" o with
  | None => true
  | Some (VStr r) => String.eqb r "true"
  | Some v => truthy v
  end.


(** A key of the ticker response that splits into a base and a quote part
    around "_", and the symbol the loop of [fetchTickers] derives from it. *)
Definition valid_ticker_key (id : string) : bool :=
  Nat.leb 2 (List.length (split "_" id)).

Definition ticker_symbol (id : string) : string :=
  match split "_" id with
  | b :: q :: _ => commonCurrencyCode (toUpperCase b) ++ "/" ++ commonCurrencyCode (toUpperCase q)
  | _ => ""
  end.

(** The market a ticker is normalized with: the one registered under the
    id of the pair, else the one registered under the symbol, else none. *)
Definition ticker_market (by_symbol by_id : dict) (id : string) : value :=
  match lookup id by_id with
  | Some entry => entry
  | None =>
      match lookup (ticker_symbol id) by_symbol with
      | Some entry => entry
      | None => VUndefined
      end
  end.

(** The ticker [parseTicker] returns. *)
Definition parsed_ticker (ticker market : value) (w : exchange_state) : value :=
  match fst (parseTicker ticker market w) with
  | Return t => t
  | Throw _ => VUndefined
  end.

(** One turn of the loop of [fetchTickers]. *)
Definition file_ticker (tickers : value) (by_symbol by_id : dict) (w : exchange_state)
           (result : dict) (id : string) : dict :=
  assign (ticker_symbol id)
         (parsed_ticker (member tickers id) (ticker_market by_symbol by_id id) w)
         result.

(** The request [fetch2] hands to the transport. *)
Definition dispatched (path api method : string) (params : value) : dispatch :=
  {| rq_path := path; rq_api := api; rq_method := method; rq_params := params |}.

End Vocabulary.

(** ** An executable run-time and a stub base class

    Used to run the adapter on concrete payloads.  The run-time is exact on
    short decimal literals (up to 15 significant digits, read as an integer
    divided by a power of ten) and on integral numbers; the JSON reader
    covers objects, arrays, literals, numbers and strings without escapes. *)
Module Sample.

Definition float_of_Z (z : Z) : float :=
  if (z <? 0)%Z then (- PrimFloat.of_uint63 (Uint63.of_Z (- z)))%float
  else PrimFloat.of_uint63 (Uint63.of_Z z).

(** The integer a number denotes, when it is integral. *)
Definition integral (x : float) : option Z :=
  match Prim2SF x with
  | S754_zero _ => Some 0%Z
  | S754_finite s m e =>
      let n :=
        if (0 <=? e)%Z then Some (Z.pos m * 2 ^ e)%Z
        else if (Z.pos m mod 2 ^ (- e) =? 0)%Z then Some (Z.pos m / 2 ^ (- e))%Z
        else None in
      match n with
      | Some n => Some (if s then (- n)%Z else n)
      | None => None
      end
  | _ => None
  end.

Definition number_to_string (x : float) : string :=
  match integral x with
  | Some (Zneg p) => "-" ++ NilZero.string_of_uint (Pos.to_uint p)
  | Some z => NilZero.string_of_uint (N.to_uint (Z.to_N z))
  | None =>
      if PrimFloat.is_infinity x then (if PrimFloat.ltb x 0 then "-Infinity" else "Infinity")
      else "NaN"
  end.

(** Leading decimal digits: their value, their count, and the rest. *)
Fixpoint digits (s : string) (acc : Z) (count : nat) : Z * nat * string :=
  match s with
  | String c rest =>
      if is_digit c
      then digits rest (10 * acc + Z.of_nat (nat_of_ascii c - 48))%Z (S count)
      else (acc, count, s)
  | EmptyString => (acc, count, s)
  end.

(** A decimal literal [-]digits[.digits] at the head of [s]. *)
Definition decimal (s : string) : option (float * string) :=
  let '(negative, s) :=
    match s with
    | String "-" rest => (true, rest)
    | _ => (false, s)
    end in
  let '(whole, n, rest) := digits s 0%Z 0 in
  if Nat.eqb n 0 then None
  else
    let '(mantissa, scale, rest) :=
      match rest with
      | String "." after =>
          let '(all, k, rest') := digits after whole 0 in
          if Nat.eqb k 0 then (whole, 0%nat, rest) else (all, k, rest')
      | _ => (whole, 0%nat, rest)
      end in
    let x := (float_of_Z mantissa / float_of_Z (10 ^ Z.of_nat scale))%float in
    Some (if negative then (- x)%float else x, rest).

Definition parse_float (s : string) : float :=
  match decimal s with
  | Some (x, _) => x
  | None => nan
  end.

Definition to_number (s : string) : float :=
  match s with
  | EmptyString => 0%float
  | _ => match decimal s with
         | Some (x, EmptyString) => x
         | _ => nan
         end
  end.

Definition parse_int (s : string) : float :=
  let '(negative, s) :=
    match s with
    | String "-" rest => (true, rest)
    | _ => (false, s)
    end in
  let '(whole, n, _) := digits s 0%Z 0 in
  if Nat.eqb n 0 then nan
  else if negative then (- float_of_Z whole)%float else float_of_Z whole.

(** [x] to an integral power, by repeated multiplication. *)
Fixpoint power (x : float) (n : nat) : float :=
  match n with
  | O => 1%float
  | S n' => (x * power x n')%float
  end.

Definition pow (x y : float) : float :=
  match integral y with
  | Some (Zneg p) => (1 / power x (Pos.to_nat p))%float
  | Some z => power x (Z.to_nat z)
  | None => nan
  end.

Definition upper (c : ascii) : ascii :=
  let n := nat_of_ascii c in
  if ((97 <=? n) && (n <=? 122))%nat then ascii_of_nat (n - 32) else c.

Definition to_upper (s : string) : string :=
  string_of_list_ascii (map upper (list_ascii_of_string s)).

(** *** A JSON reader *)

Definition quote : ascii := ascii_of_nat 34.

Fixpoint skip_space (s : string) : string :=
  match s with
  | String " " rest => skip_space rest
  | _ => s
  end.

(** The characters up to the closing quote. *)
Fixpoint string_body (s : string) : option (string * string) :=
  match s with
  | EmptyString => None
  | String c rest =>
      if Ascii.eqb c quote then Some (EmptyString, rest)
      else if Ascii.eqb c "\" then None
      else match string_body rest with
           | Some (text, rest') => Some (String c text, rest')
           | None => None
           end
  end.

Definition literal (word : string) (v : value) (s : string) : option (value * string) :=
  if String.prefix word s
  then Some (v, String.substring (String.length word) (String.length s - String.length word) s)
  else None.

Fixpoint read_value (fuel : nat) (s : string) : option (value * string) :=
  match fuel with
  | O => None
  | S fuel' =>
      match skip_space s with
      | String "{" rest =>
          match skip_space rest with
          | String "}" rest' => Some (VObj [], rest')
          | rest' =>
              match read_members fuel' rest' with
              | Some (o, rest'') => Some (VObj o, rest'')
              | None => None
              end
          end
      | String "[" rest =>
          match skip_space rest with
          | String "]" rest' => Some (VArr [], rest')
          | rest' =>
              match read_elements fuel' rest' with
              | Some (l, rest'') => Some (VArr l, rest'')
              | None => None
              end
          end
      | String c rest as s' =>
          if Ascii.eqb c quote then
            match string_body rest with
            | Some (text, rest') => Some (VStr text, rest')
            | None => None
            end
          else
            match literal "true" (VBool true) s' with
            | Some r => Some r
            | None =>
            match literal "false" (VBool false) s' with
            | Some r => Some r
            | None =>
            match literal "null" VNull s' with
            | Some r => Some r
            | None =>
            match decimal s' with
            | Some (x, rest') => Some (VNum x, rest')
            | None => None
            end end end end
      | EmptyString => None
      end
  end
with read_members (fuel : nat) (s : string) : option (dict * string) :=
  match fuel with
  | O => None
  | S fuel' =>
      match skip_space s with
      | String c rest =>
          if Ascii.eqb c quote then
            match string_body rest with
            | Some (key, rest') =>
                match skip_space rest' with
                | String ":" rest'' =>
                    match read_value fuel' rest'' with
                    | Some (v, after) =>
                        match skip_space after with
                        | String "," more =>
                            match read_members fuel' more with
                            | Some (o, final) =>
                                Some ((key, match lookup key o with Some v' => v' | None => v end)
                                        :: filter (fun kv => negb (String.eqb (fst kv) key)) o,
                                      final)
                            | None => None
                            end
                        | String "}" final => Some ([(key, v)], final)
                        | _ => None
                        end
                    | None => None
                    end
                | _ => None
                end
            | None => None
            end
          else None
      | EmptyString => None
      end
  end
with read_elements (fuel : nat) (s : string) : option (list value * string) :=
  match fuel with
  | O => None
  | S fuel' =>
      match read_value fuel' s with
      | Some (v, after) =>
          match skip_space after with
          | String "," more =>
              match read_elements fuel' more with
              | Some (l, final) => Some (v :: l, final)
              | None => None
              end
          | String "]" final => Some ([v], final)
          | _ => None
          end
      | None => None
      end
  end.

Definition json_parse (s : string) : option value :=
  match read_value (S (String.length s)) s with
  | Some (v, rest) =>
      match skip_space rest with
      | EmptyString => Some v
      | _ => None
      end
  | None => None
  end.

(** JSON text written with ['] for the double quote. *)
Definition text (s : string) : string :=
  string_of_list_ascii
    (map (fun c => if Ascii.eqb c "'" then quote else c) (list_ascii_of_string s)).

#[export] Instance runtime : Runtime := {|
  StringToNumber := to_number;
  NumberToString := number_to_string;
  parseFloat_string := parse_float;
  parseInt_string := parse_int;
  Math_pow := pow;
  JSON_parse := json_parse;
  toUpperCase := to_upper;
|}.

(** *** A stub of the base class *)

Definition common_code (s : string) : string :=
  if String.eqb s "XBT" then "BTC"
  else if String.eqb s "BCC" then "BCH"
  else s.

Definition field (s : string) (start len : nat) : option Z :=
  match digits (String.substring start len s) 0%Z 0 with
  | (n, count, EmptyString) => if Nat.eqb count len then Some n else None
  | _ => None
  end.

(** Days from 1970-01-01 to a civil date. *)
Definition days_from_civil (y m d : Z) : Z :=
  let y := (if m <=? 2 then y - 1 else y)%Z in
  let era := (y / 400)%Z in
  let yoe := (y - era * 400)%Z in
  let doy := ((153 * (if m >? 2 then m - 3 else m + 9) + 2) / 5 + d - 1)%Z in
  let doe := (yoe * 365 + yoe / 4 - yoe / 100 + doy)%Z in
  (era * 146097 + doe - 719468)%Z.

(** Text of the shape [YYYY-MM-DD HH:MM:SS], read as UTC. *)
Definition parse_date (v : value) : value :=
  match v with
  | VStr s =>
      match field s 0 4, field s 5 2, field s 8 2, field s 11 2, field s 14 2, field s 17 2 with
      | Some y, Some mo, Some d, Some h, Some mi, Some sec =>
          if Nat.eqb (String.length s) 19
          then VNum (float_of_Z
                 ((((days_from_civil y mo d * 24 + h) * 60 + mi) * 60 + sec) * 1000)%Z)
          else VUndefined
      | _, _, _, _, _, _ => VUndefined
      end
  | _ => VUndefined
  end.

Definition url_encode (o : dict) : string :=
  String.concat "&" (map (fun kv => fst kv ++ "=" ++ ToString (snd kv)) o).

(** The name up to the closing brace. *)
Fixpoint placeholder (s : string) : option (string * string) :=
  match s with
  | EmptyString => None
  | String "}" rest => Some (EmptyString, rest)
  | String c rest =>
      match placeholder rest with
      | Some (name, rest') => Some (String c name, rest')
      | None => None
      end
  end.

Fixpoint scan (fuel : nat) (s : string) : list (bool * string) :=
  match fuel with
  | O => []
  | S fuel' =>
      match s with
      | EmptyString => []
      | String "{" rest =>
          match placeholder rest with
          | Some (name, rest') => (true, name) :: scan fuel' rest'
          | None => (false, "{") :: scan fuel' rest
          end
      | String c rest => (false, String c EmptyString) :: scan fuel' rest
      end
  end.

Definition implode (path : string) (params : value) : string :=
  String.concat ""
    (map (fun piece : bool * string =>
            if fst piece then ToString (member params (snd piece)) else snd piece)
         (scan (S (String.length path)) path)).

Definition extract (path : string) : list string :=
  map snd (filter fst (scan (S (String.length path)) path)).

Definition registry_get (what : string) (registry key : value) : M value :=
  match member registry (ToString key) with
  | VUndefined => throw (Raise ExchangeError (id ++ " No " ++ what ++ " " ++ ToString key))
  | entry => ret entry
  end.

(** A base class whose transport answers from [reply] and whose registries
    count as loaded. *)
Definition exchange (reply : dispatch -> outcome value) : Exchange := {|
  commonCurrencyCode := common_code;
  parse8601 := parse_date;
  iso8601 := fun _ => VUndefined;
  json := fun v => ToString v;
  urlencode := url_encode;
  hmac := fun message key hash =>
            VStr (hash ++ "(" ++ ToString key ++ "," ++ ToString message ++ ")");
  encode := fun v => v;
  implodeParams := implode;
  extractParams := extract;
  nonce := fun w => (VNum (clock w), w);
  loadMarkets := ret tt;
  market := fun symbol w => registry_get "market symbol" (markets w) symbol w;
  currency := fun code w => registry_get "currency" (currencies w) code w;
  transport := fun rq => lift (reply rq);
  parseTrades := fun parse trades market since limit =>
                   let* l := omap (fun trade => parse trade market) (elements trades) in
                   Return (VArr l);
  parseBalance := fun v => v;
  sortBy := fun l _ => l;
  filterBySinceLimit := fun l _ _ => VArr l;
|}.

Definition idle : exchange_state := {|
  markets := VObj [("BTC/USDT",
                    VObj [("id", VStr "btc_usdt"); ("symbol", VStr "BTC/USDT");
                          ("base", VStr "BTC"); ("quote", VStr "USDT")])];
  markets_by_id := VObj [];
  currencies := VObj [("BTC", VObj [("id", VStr "btc"); ("code", VStr "BTC")]);
                      ("USDT", VObj [("id", VStr "usdt"); ("code", VStr "USDT")]);
                      ("XRP", VObj [("id", VStr "xrp"); ("code", VStr "XRP")])];
  apiKey := VStr "key";
  secret := VStr "secret";
  clock := 1500000000000;
  wire := [];
|}.

Definition unconfigured : exchange_state := {|
  markets := VObj [];
  markets_by_id := VObj [];
  currencies := VObj [];
  apiKey := VUndefined;
  secret := VUndefined;
  clock := 1500000000000;
  wire := [];
|}.

Definition json_reply (body : string) : dispatch -> outcome value :=
  fun _ => match json_parse (text body) with
           | Some v => Return v
           | None => Throw (Raise SyntaxError "Unexpected token in JSON")
           end.

Definition offline : Exchange := exchange (fun _ => Return VUndefined).

Definition ignored : value := VUndefined.

Definition btc_usdt : value :=
  VObj [("id", VStr "btc_usdt"); ("symbol", VStr "BTC/USDT");
        ("base", VStr "BTC"); ("quote", VStr "USDT")].

Definition public_trade : value :=
  VObj [("tradeID", VNum 7); ("date", VStr "2017-07-14 02:40:00");
        ("type", VStr "buy"); ("rate", VStr "2500.5"); ("amount", VNum 2)].

Definition private_trade : value :=
  VObj [("tradeID", VNum 7); ("orderNumber", VNum 41); ("time_unix", VNum 1500000000);
        ("type", VStr "buy"); ("rate", VStr "2500.5"); ("amount", VNum 2)].

Definition rising_ticker : value :=
  VObj [("last", VNum 100); ("percentChange", VNum 10)].

(** An order queried after it was placed: no initial fields any more. *)
Definition queried_order : value :=
  VObj [("orderNumber", VNum 7); ("type", VStr "sell"); ("initialAmount", VNum 0);
        ("amount", VNum 3); ("filledAmount", VNum 1); ("feePercentage", VNum 0.2);
        ("rate", VStr "2500.5")].

Definition zero_fee_order : value :=
  VObj [("orderNumber", VNum 8); ("type", VStr "sell"); ("initialAmount", VNum 3);
        ("filledAmount", VNum 1); ("feePercentage", VNum 0)].


Definition catalog_reply : dispatch -> outcome value :=
  json_reply
    ("{'result':'true','pairs':["
     ++ "{'btc_usdt':{'decimal_places':2,'min_amount':0.0001,'fee':0.2}},"
     ++ "{'xbt_eth':{'decimal_places':6,'min_amount':0.001,'fee':0.2}},"
     ++ "{'ltc_xrp':{'decimal_places':3,'min_amount':0.5,'fee':0.2}}]}").

Definition balances_reply : dispatch -> outcome value :=
  json_reply
    "{'result':'true','available':{'BTC':'1.5'},'locked':{'BTC':'0.25','USDT':'3'}}".

Definition trades_reply : dispatch -> outcome value :=
  json_reply
    ("{'result':'true','trades':[{'tradeID':7,'orderNumber':41,"
     ++ "'date':'2017-07-14 10:40:00','time_unix':1500000000,"
     ++ "'type':'buy','rate':'2500.5','amount':2}]}").


Definition balances : dispatch :=
  {| rq_path := "balances"; rq_api := "private"; rq_method := "POST"; rq_params := VObj [] |}.

Definition xrp_address : dispatch :=
  {| rq_path := "depositAddress"; rq_api := "private"; rq_method := "POST";
     rq_params := VObj [("currency", VStr "xrp")] |}.

(** *** A stub of the further collaborators *)

Definition lower (c : ascii) : ascii :=
  let n := nat_of_ascii c in
  if ((65 <=? n) && (n <=? 90))%nat then ascii_of_nat (n + 32) else c.

Definition to_lower (s : string) : string :=
  string_of_list_ascii (map lower (list_ascii_of_string s)).

Definition capital (s : string) : string :=
  match s with
  | EmptyString => EmptyString
  | String c rest => String (upper c) rest
  end.

Definition check_address (address : value) : outcome unit :=
  match address with
  | VStr a =>
      if (Nat.leb (String.length a) 0 || includes " " a)%bool
      then Throw (Raise InvalidAddress (id ++ " address is invalid"))
      else Return tt
  | _ => Throw (Raise InvalidAddress (id ++ " address is undefined"))
  end.

#[export] Instance trading : Trading := {|
  marketId := fun symbol w =>
                match registry_get "market symbol" (markets w) symbol w with
                | (Return entry, w') => (Return (member entry "id"), w')
                | (Throw e, w') => (Throw e, w')
                end;
  checkAddress := check_address;
  capitalize := capital;
  toLowerCase := to_lower;
  parseOrders := fun parse orders market since limit =>
                   let* l := omap (fun order => parse order market) (elements orders) in
                   Return (VArr l);
  parseOrderBook := fun book => Return book;
  filterBySymbol := fun orders _ => orders;
|}.

(** *** Further replies and requests *)

Definition rejected_reply : dispatch -> outcome value :=
  json_reply "{'result':'false','code':'21','message':'x'}".


(** An order record that carries no times and no filled amount. *)
Definition bare_order : value :=
  VObj [("orderNumber", VNum 7); ("type", VStr "buy"); ("amount", VNum 3)].

Definition tickers_reply : dispatch -> outcome value :=
  json_reply
    ("{'btc_usdt':{'last':'100','percentChange':'10','quoteVolume':'5','baseVolume':'7'},"
     ++ "'xbt_eth':{'last':'2'}}").

Definition broken_tickers_reply : dispatch -> outcome value :=
  json_reply "{'btc_usdt':{'last':'100'},'btcusdt':{'last':'100'}}".

Definition ticker_reply : dispatch -> outcome value :=
  json_reply "{'result':'true','last':'100','percentChange':'10'}".

Definition order_reply : dispatch -> outcome value :=
  json_reply
    ("{'result':'true','order':{'orderNumber':7,'status':'open','type':'sell',"
     ++ "'initialAmount':'3','initialRate':'2500.5','filledAmount':'1'}}").

Definition no_order_reply : dispatch -> outcome value :=
  json_reply "{'result':'true','message':'Success'}".

Definition placed_reply : dispatch -> outcome value :=
  json_reply "{'result':'true','orderNumber':9,'message':'Success'}".

Definition open_orders_reply : dispatch -> outcome value :=
  json_reply
    ("{'result':'true','orders':[{'orderNumber':7,'status':'open','type':'sell',"
     ++ "'amount':'3','rate':'2500.5'}]}").

Definition public_trades_reply : dispatch -> outcome value :=
  json_reply
    ("{'result':'true','data':[{'tradeID':7,'date':'2017-07-14 10:40:00',"
     ++ "'type':'buy','rate':'2500.5','amount':2}]}").

(** The response a reply gives to a request. *)
Definition answer (reply : dispatch -> outcome value) (rq : dispatch) : value :=
  match reply rq with
  | Return v => v
  | Throw _ => VUndefined
  end.


Definition new_address : dispatch :=
  {| rq_path := "newAddress"; rq_api := "private"; rq_method := "POST";
     rq_params := VObj [("currency", VStr "btc")] |}.

Definition deposit_address : dispatch :=
  {| rq_path := "depositAddress"; rq_api := "private"; rq_method := "POST";
     rq_params := VObj [("currency", VStr "btc")] |}.

Definition book_reply : dispatch -> outcome value :=
  json_reply "{'result':'true','asks':[[2501,1]],'bids':[[2500,2]]}".

Definition order_book : dispatch :=
  {| rq_path := "orderBook/{id}"; rq_api := "public"; rq_method := "GET";
     rq_params := VObj [("id", VStr "btc_usdt")] |}.

(** A trade of the account whose date and [time_unix] name the same
    time. *)
Definition own_trade : value :=
  VObj [("tradeID", VNum 7); ("orderNumber", VNum 41); ("date", VStr "2017-07-14 02:40:00");
        ("time_unix", VNum 1500000000); ("type", VStr "buy"); ("rate", VStr "2500.5");
        ("amount", VNum 2)].

Definition own_trades_reply : dispatch -> outcome value :=
  json_reply
    ("{'result':'true','trades':[{'tradeID':7,'orderNumber':41,"
     ++ "'date':'2017-07-14 02:40:00','time_unix':1500000000,"
     ++ "'type':'buy','rate':'2500.5','amount':2}]}").

Definition tickers : dispatch :=
  {| rq_path := "tickers"; rq_api := "public"; rq_method := "GET"; rq_params := VObj [] |}.

Definition ticker_btc_usdt : dispatch :=
  {| rq_path := "ticker/{id}"; rq_api := "public"; rq_method := "GET";
     rq_params := VObj [("id", VStr "btc_usdt")] |}.

Definition get_order : dispatch :=
  {| rq_path := "getOrder"; rq_api := "private"; rq_method := "POST";
     rq_params := VObj [("orderNumber", VNum 7); ("currencyPair", VStr "btc_usdt")] |}.

Definition buy : dispatch :=
  {| rq_path := "buy"; rq_api := "private"; rq_method := "POST";
     rq_params := VObj [("currencyPair", VStr "btc_usdt"); ("rate", VNum 2500);
                        ("amount", VNum 2)] |}.

Definition cancel : dispatch :=
  {| rq_path := "cancelOrder"; rq_api := "private"; rq_method := "POST";
     rq_params := VObj [("orderNumber", VNum 7); ("currencyPair", VStr "btc_usdt")] |}.

Definition open_orders : dispatch :=
  {| rq_path := "openOrders"; rq_api := "private"; rq_method := "POST";
     rq_params := VObj [] |}.

Definition trade_history : dispatch :=
  {| rq_path := "tradeHistory"; rq_api := "private"; rq_method := "POST";
     rq_params := VObj [("currencyPair", VStr "btc_usdt")] |}.

Definition public_trade_history : dispatch :=
  {| rq_path := "tradeHistory/{id}"; rq_api := "public"; rq_method := "GET";
     rq_params := VObj [("id", VStr "btc_usdt")] |}.

Definition withdrawal : dispatch :=
  {| rq_path := "withdraw"; rq_api := "private"; rq_method := "POST";
     rq_params := VObj [("currency", VStr "btc"); ("amount", VNum 1);
                        ("address", VStr "1BitcoinAddress")] |}.

End Sample.

(** ** Properties *)

Unset Implicit Arguments.

Section Properties.
Context {rt : Runtime} {self : Exchange}.

(** Once one property of a value has been read, every property can be. *)
Lemma js_get_member (v : value) (k : string) (x : value) :
  js_get v k = Return x -> forall k', js_get v k' = Return (member v k').
Proof.
  destruct v; simpl; intros H k'; try discriminate; reflexivity.
Qed.


(** C10: the method of the class named [fetchMyTrades] is the second of
    the two definitions; called without a symbol it rejects with
    [ExchangeError] and leaves the state, hence the list of dispatched
    requests, as it found it. *)
Theorem fetchMyTrades_requires_symbol :
  forall (since limit params : value) (w : exchange_state),
    fetchMyTrades = fetchMyTrades_2
    /\ fetchMyTrades VUndefined since limit params w
       = (Throw (Raise ExchangeError "gateio fetchMyTrades requires symbol param"), w)
    /\ wire (snd (fetchMyTrades VUndefined since limit params w)) = wire w.
Proof.
  intros since limit params w. repeat split.
Qed.

(** With a symbol, the method of the class looks the market up, posts one
    [tradeHistory] request and hands the trades of the response to
    [parseTrades] of the base class together with [parseTrade]. *)
Lemma fetchMyTrades_with_symbol
      (symbol since limit params entry entry_id response trades : value)
      (w w1 w2 w3 : exchange_state) :
  defined symbol = true ->
  loadMarkets w = (Return tt, w1) ->
  market symbol w1 = (Return entry, w2) ->
  js_get entry "id" = Return entry_id ->
  privatePostTradeHistory (extend (VObj [("currencyPair", entry_id)]) params) w2
  = (Return response, w3) ->
  js_get response "trades" = Return trades ->
  fetchMyTrades symbol since limit params w
  = (parseTrades parseTrade trades entry since limit, w3).
Proof.
  intros Hsymbol Hload Hmarket Hid Hcall Htrades.
  change fetchMyTrades with fetchMyTrades_2. unfold fetchMyTrades_2.
  rewrite Hsymbol. cbn [negb]. unfold bind. rewrite Hload, Hmarket.
  unfold lift at 1. rewrite Hid, Hcall. unfold lift. now rewrite Htrades.
Qed.

(** *** The error classifier *)

Lemma first_character (c : ascii) (rest : string) :
  is_string (member (VStr (String c rest)) "0") "{" = Ascii.eqb c "{".
Proof.
  cbn. destruct (Ascii.eqb c "{"); reflexivity.
Qed.

(** The string accessor yields a string or its default. *)
Lemma safeString_cases (o : value) (k : string) (dflt : value) :
  safeString o k dflt = dflt \/ exists s, safeString o k dflt = VStr s.
Proof.
  unfold safeString. destruct (prop o k); auto.
  - destruct (isFinite x); eauto.
  - eauto.
Qed.

(** A name every object inherits is no code of the tables. *)
Lemma inherited_not_listed (ec : string) (i : inherited) :
  table_get ec Object_prototype = Some i ->
  table_get ec exceptions = None /\ table_get ec errorCodeNames = None.
Proof.
  unfold Object_prototype. cbn [table_get].
  repeat match goal with
         | |- context [String.eqb ?k ec] => destruct (String.eqb_spec k ec) as [<-|_]
         end;
    intros [= <-]; split; vm_compute; reflexivity.
Qed.

(** C2, as the code has it: the classifier passes an empty body and a body
    that does not start with an opening brace; it passes a parsed body whose
    result, read as a string, is not "false"; on a "false" result it raises
    the class the error-code table gives for the code, [InsufficientFunds]
    for "21", and passes when the code is missing.  A code that is not in
    the table passes only when it is no name that every object inherits:
    the test [errorCode in exceptions] also finds those names, and for one
    of them, "toString" say, the classifier raises: a [TypeError], since
    what the table then yields is no constructor, and for "constructor" the
    function [Object] itself. *)
Theorem handleErrors_classifies :
  forall (code reason url method headers : value) (body : string),
    let run := handleErrors code reason url method headers body in
    (body = "" -> run = Return tt)
    /\ (forall c rest, body = String c rest -> c <> "{"%char -> run = Return tt)
    /\ (forall rest parsed,
          body = String "{" rest ->
          JSON_parse body = Some parsed ->
          let resultString := safeString parsed "result" (VStr "") in
          let errorCode := safeString parsed "code" VUndefined in
          (errorCode = VUndefined \/ exists ec, errorCode = VStr ec)
          /\ (resultString <> VStr "false" -> run = Return tt)
          /\ (prop parsed "result" = VUndefined -> run = Return tt)
          /\ (forall s, prop parsed "result" = VStr s -> s <> "false" -> run = Return tt)
          /\ (resultString = VStr "false" ->
              (forall ec exception,
                  errorCode = VStr ec ->
                  table_get ec exceptions = Some exception ->
                  exists message, run = Throw (Raise exception message))
              /\ (errorCode = VStr "21" ->
                  run = Throw (Raise InsufficientFunds "You don't have enough fund")
                  /\ kind_of InsufficientFunds = Some Kind.InsufficientFunds)
              /\ (forall ec,
                     errorCode = VStr ec ->
                     table_get ec exceptions = None ->
                     table_get ec Object_prototype = None ->
                     run = Return tt)
              /\ (forall ec i,
                     errorCode = VStr ec ->
                     table_get ec Object_prototype = Some i ->
                     table_get ec exceptions = None
                     /\ (i <> ObjectFunction ->
                         run = Throw (Raise TypeError
                                            "exceptions[errorCode] is not a constructor"))
                     /\ (i = ObjectFunction ->
                         run = Throw (Raise ThrownValue
                                            "function Object() { [native code] }")))
              /\ (errorCode = VStr "toString" ->
                  run = Throw (Raise TypeError "exceptions[errorCode] is not a constructor"))
              /\ (errorCode = VUndefined -> run = Return tt))).
Proof.
  intros code reason url method headers body run.
  split; [|split].
  - intros ->. reflexivity.
  - intros c rest -> Hc. subst run. unfold handleErrors.
    cbn [String.length Nat.leb]. rewrite first_character.
    apply Ascii.eqb_neq in Hc. rewrite Hc. reflexivity.
  - intros rest parsed -> Hparse resultString errorCode.
    assert (Hrun : run =
      if negb (is_string resultString "false") then Return tt
      else if defined errorCode then
        match table_read (ToString errorCode) exceptions with
        | Absent => Return tt
        | found =>
            throw_new found
              match table_read (ToString errorCode) errorCodeNames with
              | Own name => Given (VStr name)
              | Inherited name i => Builtin name i
              | Absent => Given (safeString parsed "message" (VStr "(unknown)"))
              end
        end
      else Return tt).
    { subst run. unfold handleErrors.
      cbn [String.length Nat.leb]. rewrite first_character, Hparse. reflexivity. }
    assert (Hnot : resultString <> VStr "false" -> run = Return tt).
    { intros Hne. rewrite Hrun.
      destruct resultString as [| | | |s| |] eqn:E; try reflexivity.
      cbn [is_string]. destruct (String.eqb_spec s "false") as [->|]; [congruence|reflexivity]. }
    split; [exact (safeString_cases parsed "code" VUndefined)|].
    split; [exact Hnot|]. split; [|split].
    + intros Hmissing. apply Hnot. subst resultString. unfold safeString.
      rewrite Hmissing. discriminate.
    + intros s Hfield Hs. apply Hnot. subst resultString. unfold safeString.
      rewrite Hfield. congruence.
    + intros Hfalse. rewrite Hfalse in Hrun. cbn [is_string] in Hrun.
      change (String.eqb "false" "false") with true in Hrun. cbn [negb] in Hrun.
      split; [|split; [|split; [|split; [|split]]]].
      * intros ec exception Hec Hin. rewrite Hrun, Hec. cbn [defined ToString].
        unfold table_read at 1. rewrite Hin. cbn [throw_new]. eauto.
      * intros Hec. rewrite Hrun, Hec. split; reflexivity.
      * intros ec Hec Hout Hplain. rewrite Hrun, Hec. cbn [defined ToString].
        unfold table_read at 1. rewrite Hout, Hplain. reflexivity.
      * intros ec i Hec Hinherited.
        destruct (inherited_not_listed _ _ Hinherited) as [Hclass Hname].
        split; [exact Hclass|].
        rewrite Hrun, Hec. cbn [defined ToString]. unfold table_read.
        rewrite Hclass, Hname, Hinherited. cbn [throw_new].
        split; intros Hi; destruct i; try congruence; reflexivity.
      * intros Hec. rewrite Hrun, Hec. reflexivity.
      * intros Hec. rewrite Hrun, Hec. reflexivity.
Qed.

(** *** Dictionaries *)

Lemma lookup_assign_same (k : string) (v : value) (o : dict) :
  lookup k (assign k v o) = Some v.
Proof.
  induction o as [|[k' v'] o IH]; cbn [assign lookup].
  - now rewrite String.eqb_refl.
  - destruct (String.eqb k' k) eqn:E; cbn [lookup]; now rewrite E.
Qed.

Lemma lookup_assign_other (k k' : string) (v : value) (o : dict) :
  k' <> k -> lookup k' (assign k v o) = lookup k' o.
Proof.
  intros Hne. induction o as [|[k0 v0] o IH]; cbn [assign lookup].
  - destruct (String.eqb_spec k k'); [congruence|reflexivity].
  - destruct (String.eqb_spec k0 k) as [->|]; cbn [lookup].
    + destruct (String.eqb_spec k k'); [congruence|reflexivity].
    + now rewrite IH.
Qed.

(** *** The ticker and order normalizers *)

(** The numeric accessor yields a number exactly on numeric fields. *)
Lemma safeFloat_numeric (o : value) (k : string) :
  (numeric o k = true /\ exists x, safeFloat o k VUndefined = VNum x /\ isFinite x = true)
  \/ (numeric o k = false /\ safeFloat o k VUndefined = VUndefined).
Proof.
  unfold numeric, safeFloat. destruct (prop o k) as [| | |x|s| |]; auto.
  - destruct (isFinite x) eqn:E; eauto.
  - destruct (isFinite (parseFloat_string s)) eqn:E; eauto.
Qed.

Lemma safeFloat_missing (o : value) (k : string) :
  prop o k = VUndefined -> numeric o k = false.
Proof.
  unfold numeric. now intros ->.
Qed.

Lemma truthy_market (market : value) :
  exists symbol,
    (if truthy market then js_get market "symbol" else Return VUndefined) = Return symbol.
Proof.
  destruct market; cbn [truthy js_get]; eauto;
    match goal with |- context [if ?c then _ else _] => destruct c end; eauto.
Qed.

(** C5: a ticker's [open], [change] and [average] are defined exactly when
    both [last] and [percentChange] are numeric fields, and then
    open = last / (1 + percentChange / 100), change = last - open and
    average = (last + open) / 2; without [percentChange] the three are
    [undefined] while [last] and [close] carry the last value. *)
Theorem parseTicker_derived :
  forall (ticker market : value) (w : exchange_state),
  exists t,
    parseTicker ticker market w = (Return t, w)
    /\ member t "last" = safeFloat ticker "last" VUndefined
    /\ member t "close" = safeFloat ticker "last" VUndefined
    /\ defined (member t "open") = numeric ticker "last" && numeric ticker "percentChange"
    /\ defined (member t "change") = numeric ticker "last" && numeric ticker "percentChange"
    /\ defined (member t "average") = numeric ticker "last" && numeric ticker "percentChange"
    /\ (forall last percentChange,
          safeFloat ticker "last" VUndefined = VNum last ->
          safeFloat ticker "percentChange" VUndefined = VNum percentChange ->
          let open := (last / (1 + percentChange / 100))%float in
          member t "open" = VNum open
          /\ member t "change" = VNum (last - open)
          /\ member t "average" = VNum ((last + open) / 2))
    /\ (prop ticker "percentChange" = VUndefined ->
          member t "open" = VUndefined
          /\ member t "change" = VUndefined
          /\ member t "average" = VUndefined).
Proof.
  intros ticker market w.
  destruct (truthy_market market) as [symbol Hsym].
  unfold parseTicker, milliseconds, bind, gets, lift, ret. rewrite Hsym.
  destruct (safeFloat_numeric ticker "last") as [(Hl & l & Hlast & _)|(Hl & Hlast)];
    destruct (safeFloat_numeric ticker "percentChange") as [(Hp & p & Hpc & _)|(Hp & Hpc)];
    rewrite Hlast, Hpc, Hl, Hp; cbn [defined andb];
    eexists; (split; [reflexivity|]);
    repeat (split; [reflexivity|]);
    (split; [intros last percentChange; try discriminate;
             intros [= <-] [= <-]; repeat split; reflexivity|]);
    intros Hmissing; apply safeFloat_missing in Hmissing;
    try congruence; repeat split; reflexivity.
Qed.

(** A value is falsy when it is [undefined] or a zero. *)
Lemma safeFloat_falsy (o : value) (k : string) :
  truthy (safeFloat o k VUndefined) = false <->
  (safeFloat o k VUndefined = VUndefined
   \/ exists x, safeFloat o k VUndefined = VNum x /\ PrimFloat.is_zero x = true).
Proof.
  destruct (safeFloat_numeric o k) as [(_ & x & -> & Hfin)|(_ & ->)].
  - cbn [truthy]. unfold isFinite in Hfin.
    destruct (PrimFloat.is_nan x); [discriminate|]. rewrite Bool.orb_false_r. split.
    + intros H. right. exists x. split; [reflexivity|]. now destruct (PrimFloat.is_zero x).
    + intros [H|(y & [= <-] & H)]; [discriminate|]. now rewrite H.
  - cbn. split; auto.
Qed.

(** The order an order record is normalized to. *)
Lemma parseOrder_returns (order market symbol orderNumber : value) :
  js_get market "symbol" = Return symbol ->
  js_get order "orderNumber" = Return orderNumber ->
  let initialAmount := safeFloat order "initialAmount" VUndefined in
  let initialRate := safeFloat order "initialRate" VUndefined in
  let feePercentage := safeFloat order "feePercentage" VUndefined in
  let amount := if truthy initialAmount then initialAmount
                else safeFloat order "amount" VUndefined in
  let price := if truthy initialRate then initialRate
               else safeFloat order "rate" VUndefined in
  let filled := safeFloat order "filledAmount" VUndefined in
  let timestamp := js_mul (safeInteger order "timestamp" VUndefined) (VNum 1000) in
  parseOrder order market
  = Return (VObj [("info", order);
                  ("id", member order "orderNumber");
                  ("timestamp", timestamp);
                  ("datetime", iso8601 timestamp);
                  ("status", member order "status");
                  ("symbol", member market "symbol");
                  ("type", VStr "limit");
                  ("side", member order "type");
                  ("price", price);
                  ("cost", VUndefined);
                  ("amount", amount);
                  ("filled", filled);
                  ("average", safeFloat order "filledRate" VUndefined);
                  ("remaining", js_sub amount filled);
                  ("trades", VUndefined);
                  ("fee", if truthy feePercentage
                          then VObj [("currency", member market "base");
                                     ("value", js_div (js_mul amount feePercentage) (VNum 100))]
                          else VUndefined)]).
Proof.
  intros Hsym Hid initialAmount initialRate feePercentage amount price filled timestamp.
  unfold parseOrder.
  rewrite !(js_get_member _ _ _ Hsym), !(js_get_member _ _ _ Hid). cbn [obind].
  fold initialAmount initialRate feePercentage.
  subst amount price.
  destruct (truthy feePercentage), (truthy initialAmount), (truthy initialRate);
    reflexivity.
Qed.

(** Rewriting the side of an order leaves its numeric fields as they were. *)
Lemma safeFloat_other_field (o : dict) (k k' : string) (v dflt : value) :
  k' <> k -> safeFloat (VObj (assign k v o)) k' dflt = safeFloat (VObj o) k' dflt.
Proof.
  intros Hne. unfold safeFloat, prop, member. now rewrite lookup_assign_other.
Qed.

(** C6, as the code has it: remaining = amount - filled; amount and price
    come from the initial fields and fall back to the current ones when the
    initial field is zero or absent; the fee is amount * feePercentage / 100
    in the base currency of the market, whatever the side, when
    [feePercentage] is present and not zero, and [undefined] when it is
    absent or zero. *)
Theorem parseOrder_derived :
  forall (order market symbol orderNumber : value),
    js_get market "symbol" = Return symbol ->
    js_get order "orderNumber" = Return orderNumber ->
    let initialAmount := safeFloat order "initialAmount" VUndefined in
    let initialRate := safeFloat order "initialRate" VUndefined in
    let feePercentage := safeFloat order "feePercentage" VUndefined in
    let zero_or_absent v :=
      v = VUndefined \/ exists x, v = VNum x /\ PrimFloat.is_zero x = true in
    exists r,
      parseOrder order market = Return r
      /\ member r "remaining" = js_sub (member r "amount") (member r "filled")
      /\ member r "filled" = safeFloat order "filledAmount" VUndefined
      /\ (zero_or_absent initialAmount ->
          member r "amount" = safeFloat order "amount" VUndefined)
      /\ (~ zero_or_absent initialAmount -> member r "amount" = initialAmount)
      /\ (zero_or_absent initialRate ->
          member r "price" = safeFloat order "rate" VUndefined)
      /\ (~ zero_or_absent initialRate -> member r "price" = initialRate)
      /\ (~ zero_or_absent feePercentage ->
          member r "fee"
          = VObj [("currency", member market "base");
                  ("value", js_div (js_mul (member r "amount") feePercentage) (VNum 100))])
      /\ (zero_or_absent feePercentage -> member r "fee" = VUndefined)
      /\ (forall (side : value) (fields : dict),
            order = VObj fields ->
            exists r',
              parseOrder (VObj (assign "type" side fields)) market = Return r'
              /\ member r' "side" = side
              /\ member r' "fee" = member r "fee").
Proof.
  intros order market symbol orderNumber Hsym Hid
         initialAmount initialRate feePercentage zero_or_absent.
  rewrite (parseOrder_returns _ _ _ _ Hsym Hid).
  fold initialAmount initialRate feePercentage.
  eexists. split; [reflexivity|].
  cbn [member lookup String.eqb Ascii.eqb Bool.eqb].
  pose proof (safeFloat_falsy order "initialAmount") as Ha.
  pose proof (safeFloat_falsy order "initialRate") as Hp.
  pose proof (safeFloat_falsy order "feePercentage") as Hf.
  fold initialAmount in Ha. fold initialRate in Hp. fold feePercentage in Hf.
  fold (zero_or_absent initialAmount) in Ha. fold (zero_or_absent initialRate) in Hp.
  fold (zero_or_absent feePercentage) in Hf.
  split; [reflexivity|]. split; [reflexivity|].
  split; [intros Hz; apply Ha in Hz; now rewrite Hz|].
  split; [intros Hz; destruct (truthy initialAmount); [reflexivity|]; tauto|].
  split; [intros Hz; apply Hp in Hz; now rewrite Hz|].
  split; [intros Hz; destruct (truthy initialRate); [reflexivity|]; tauto|].
  split; [intros Hz; destruct (truthy feePercentage); [reflexivity|]; tauto|].
  split; [intros Hz; apply Hf in Hz; now rewrite Hz|].
  intros side fields ->.
  rewrite (parseOrder_returns (VObj (assign "type" side fields)) market symbol
             (member (VObj (assign "type" side fields)) "orderNumber") Hsym eq_refl).
  eexists. split; [reflexivity|].
  cbn [member lookup String.eqb Ascii.eqb Bool.eqb].
  rewrite lookup_assign_same.
  rewrite !safeFloat_other_field by discriminate.
  split; reflexivity.
Qed.

(** *** The market catalog *)


Lemma nullish_member (v : value) :
  nullish v = false -> forall k, js_get v k = Return (member v k).
Proof.
  destruct v; cbn; intros H k; try discriminate; reflexivity.
Qed.










(** **** The loop over a pair list that is not an array

    On a plain object the loop reads [markets[0]], [markets[1]], ... while
    the index is below [markets.length].  The walk that models it is cut
    after one step more than the object has properties; when the cut is
    reached an element of the walk is [undefined], on which the loop body
    throws, so the cut is never observed. *)

Lemma to_uint_nonnil (n : nat) : Nat.to_uint n <> Decimal.Nil.
Proof.
  rewrite <- (Unsigned.of_to n) at 1. rewrite Unsigned.to_of. apply unorm_nonnil.
Qed.

Lemma nat_to_string_inj (n m : nat) : nat_to_string n = nat_to_string m -> n = m.
Proof.
  unfold nat_to_string. intros H. apply Unsigned.to_uint_inj.
  pose proof (NilZero.usu _ (to_uint_nonnil n)) as Hn.
  pose proof (NilZero.usu _ (to_uint_nonnil m)) as Hm.
  rewrite H in Hn. congruence.
Qed.

Lemma walk_length (v : value) (len : float) (fuel i : nat) :
  List.length (walk v len fuel i) <= fuel.
Proof.
  revert i. induction fuel as [|fuel IH]; intros i; cbn [walk List.length]; [lia|].
  destruct (PrimFloat.ltb _ _); cbn [List.length]; [|lia]. specialize (IH (S i)). lia.
Qed.

Lemma walk_full (v : value) (len : float) (fuel i : nat) :
  List.length (walk v len fuel i) = fuel ->
  walk v len fuel i = map (fun j => member v (nat_to_string j)) (seq i fuel).
Proof.
  revert i. induction fuel as [|fuel IH]; intros i; cbn [walk seq map]; [reflexivity|].
  destruct (PrimFloat.ltb _ _); cbn [List.length]; [|discriminate].
  intros [= H]. now rewrite (IH _ H).
Qed.

Lemma lookup_present (k : string) (o : dict) (v : value) :
  lookup k o = Some v -> In k (map fst o).
Proof.
  induction o as [|[k' v'] o IH]; cbn [lookup map fst In]; [discriminate|].
  destruct (String.eqb_spec k' k); [now left|]. intros H. right. now apply IH.
Qed.

Lemma some_undefined (o : dict) (indices : list nat) :
  In VUndefined (map (fun j => member (VObj o) (nat_to_string j)) indices)
  \/ incl (map nat_to_string indices) (map fst o).
Proof.
  induction indices as [|j indices IH]; cbn [map In].
  - right. intros k [].
  - destruct IH as [IH|IH]; [left; now right|].
    cbn [member]. destruct (lookup (nat_to_string j) o) as [x|] eqn:E.
    + right. intros k [<-|Hk]; [eapply lookup_present; exact E|now apply IH].
    + left. now left.
Qed.

Lemma walk_exhausted (o : dict) (len : float) :
  List.length (walk (VObj o) len (S (List.length o)) 0) = S (List.length o) ->
  In VUndefined (walk (VObj o) len (S (List.length o)) 0).
Proof.
  intros Hfull. rewrite (walk_full _ _ _ _ Hfull).
  destruct (some_undefined o (seq 0 (S (List.length o)))) as [H|Hincl]; [exact H|].
  exfalso.
  assert (Hnodup : NoDup (map nat_to_string (seq 0 (S (List.length o))))).
  { apply NoDup_map_NoDup_ForallPairs; [|apply seq_NoDup].
    intros x y _ _. apply nat_to_string_inj. }
  pose proof (NoDup_incl_length Hnodup Hincl) as Hle.
  rewrite !length_map, length_seq in Hle. lia.
Qed.

Lemma omap_stops {A B} (f : A -> outcome B) (l : list A) (a : A) (e : exn) :
  In a l -> f a = Throw e -> exists e', omap f l = Throw e'.
Proof.
  induction l as [|x l IH]; [contradiction|].
  intros [->|Hin] Ha; cbn [omap].
  - rewrite Ha. cbn [obind]. eauto.
  - destruct (f x); cbn [obind]; [|eauto].
    destruct (IH Hin Ha) as (e' & ->). cbn [obind]. eauto.
Qed.

(** Either the walk over an object ended because the index reached
    [length], or the loop throws. *)
Lemma elements_object (o : dict) :
  List.length (elements (VObj o)) <= List.length o
  \/ exists e, omap fetchMarkets_entry (elements (VObj o)) = Throw e.
Proof.
  cbn [elements].
  pose proof (walk_length (VObj o) (ToNumber (member (VObj o) "length"))
                (S (List.length o)) 0) as Hle.
  destruct (Nat.eq_dec
              (List.length (walk (VObj o) (ToNumber (member (VObj o) "length"))
                              (S (List.length o)) 0))
              (S (List.length o))) as [Hfull|Hshort]; [right|left; lia].
  apply (omap_stops _ _ VUndefined (Raise TypeError "Cannot convert undefined or null to object")).
  - now apply walk_exhausted.
  - reflexivity.
Qed.



(** *** Balances *)

Lemma js_in_object (k : string) (o : dict) :
  js_in k (VObj o) = Return (has_key k o).
Proof. reflexivity. Qed.







(** *** Deposit addresses *)

Lemma split_first (sep : ascii) (s : string) :
  exists part parts, split sep s = part :: parts.
Proof.
  destruct s as [|c s]; cbn [split]; eauto.
  destruct (Ascii.eqb c sep); eauto.
  destruct (split sep s); eauto.
Qed.

Lemma includes_char (sep c : ascii) (s : string) :
  includes (String sep "") (String c s) = Ascii.eqb c sep || includes (String sep "") s.
Proof.
  cbn [includes String.prefix].
  destruct (ascii_dec sep c) as [->|Hne].
  - rewrite Ascii.eqb_refl. now destruct s.
  - destruct (Ascii.eqb_spec c sep); [congruence|reflexivity].
Qed.

(** Text without the separator is a single part. *)
Lemma split_whole (sep : ascii) (s : string) :
  includes (String sep "") s = false -> split sep s = [s].
Proof.
  induction s as [|c s IH]; [reflexivity|].
  rewrite includes_char. intros H. apply Bool.orb_false_iff in H. destruct H as [Hc Hs].
  cbn [split]. rewrite Hc, (IH Hs). reflexivity.
Qed.

(** Text with one separator splits into what precedes and what follows it. *)
Lemma split_pair (sep : ascii) (x y : string) :
  includes (String sep "") x = false ->
  includes (String sep "") y = false ->
  split sep (x ++ String sep y) = [x; y].
Proof.
  intros Hx Hy. induction x as [|c x IH]; cbn [append split].
  - rewrite Ascii.eqb_refl, (split_whole _ _ Hy). reflexivity.
  - rewrite includes_char in Hx. apply Bool.orb_false_iff in Hx. destruct Hx as [Hc Hx].
    rewrite Hc, (IH Hx). reflexivity.
Qed.

(** X22: an address that contains "address" makes the lookup fail with
    [InvalidAddress]; for the code "XRP" an address is split on "/" into
    address and tag; for any other code a response without an address
    gives a result of status "none"; and the status of every result the
    lookup returns is "ok" when it has an address and "none" otherwise. *)
Theorem queryDepositAddress_result :
  forall (method : string) (code params : value) (w w1 w2 w3 : exchange_state)
         (entry entry_id response : value),
    loadMarkets w = (Return tt, w1) ->
    currency code w1 = (Return entry, w2) ->
    js_get entry "id" = Return entry_id ->
    call ("privatePost" ++ method ++ "Address")
         (extend (VObj [("currency", entry_id)]) params) w2 = (Return response, w3) ->
    let run := queryDepositAddress method code params w in
    let addr := safeString response "addr" VUndefined in
    (forall a,
        addr = VStr a -> includes "address" a = true ->
        run = (Throw (Raise InvalidAddress ("gateio queryDepositAddress " ++ a)), w3)
        /\ kind_of InvalidAddress = Some Kind.InvalidAddressError)
    /\ (forall a,
          addr = VStr a -> includes "address" a = false -> code = VStr "XRP" ->
          exists r,
            run = (Return r, w3)
            /\ member r "address" = at_index (split "/" a) 0
            /\ member r "tag" = at_index (split "/" a) 1
            /\ member r "status" = VStr "ok"
            /\ (forall x y,
                  a = x ++ "/" ++ y -> includes "/" x = false -> includes "/" y = false ->
                  member r "address" = VStr x /\ member r "tag" = VStr y))
    /\ (is_string code "XRP" = false ->
          (forall a, addr = VStr a -> includes "address" a = false ->
             exists r, run = (Return r, w3)
               /\ member r "address" = VStr a /\ member r "tag" = VUndefined
               /\ member r "status" = VStr "ok")
          /\ (addr = VUndefined ->
              exists r, run = (Return r, w3)
                /\ member r "address" = VUndefined /\ member r "status" = VStr "none"))
    /\ (forall r w',
          run = (Return r, w') ->
          member r "status"
          = if defined (member r "address") then VStr "ok" else VStr "none").
Proof.
  intros method code params w w1 w2 w3 entry entry_id response
         Hload Hcur Hid Hcall run addr.
  assert (Hrun : run =
    if defined addr && includes "address" (ToString addr)
    then (Throw (Raise InvalidAddress (id ++ " queryDepositAddress " ++ ToString addr)), w3)
    else
      match (if is_string code "XRP"
             then let* a := receiver addr in
                  let parts := split_limit "/" 2 a in
                  Return (at_index parts 0, at_index parts 1)
             else Return (addr, VUndefined)) with
      | Return (address, tag) =>
          (Return (VObj [("currency", entry);
                         ("address", address);
                         ("tag", tag);
                         ("status", if defined address then VStr "ok" else VStr "none");
                         ("info", response)]), w3)
      | Throw e => (Throw e, w3)
      end).
  { subst run. unfold queryDepositAddress, bind. rewrite Hload, Hcur.
    unfold lift at 1. rewrite Hid, Hcall. fold addr.
    destruct (defined addr && includes "address" (ToString addr)); [reflexivity|].
    unfold lift, ret.
    destruct (if is_string code "XRP" then _ else _) as [[address tag]|e]; reflexivity. }
  split; [|split; [|split]].
  - intros a Ha Hbad. split; [|reflexivity].
    rewrite Hrun, Ha. cbn [defined ToString andb]. rewrite Hbad. reflexivity.
  - intros a Ha Hgood ->.
    rewrite Hrun, Ha. cbn [defined ToString andb is_string]. rewrite Hgood.
    change (String.eqb "XRP" "XRP") with true. cbn [receiver obind]. unfold split_limit.
    destruct (split_first "/" a) as (part & parts & Hparts).
    eexists. split; [reflexivity|]. rewrite Hparts.
    assert (Hat0 : member (VObj [("currency", entry);
                     ("address", at_index (firstn 2 (part :: parts)) 0);
                     ("tag", at_index (firstn 2 (part :: parts)) 1);
                     ("status", if defined (at_index (firstn 2 (part :: parts)) 0)
                                then VStr "ok" else VStr "none");
                     ("info", response)]) "address" = VStr part) by reflexivity.
    split; [exact Hat0|]. split; [destruct parts; reflexivity|]. split; [reflexivity|].
    intros x y -> Hx Hy. change (x ++ "/" ++ y) with (x ++ String "/" y) in Hparts.
    rewrite (split_pair "/" x y Hx Hy) in Hparts.
    injection Hparts as <- <-. split; reflexivity.
  - intros Hother. split.
    + intros a Ha Hgood. rewrite Hrun, Ha. cbn [defined ToString andb]. rewrite Hgood, Hother.
      eexists. split; [reflexivity|]. repeat split; reflexivity.
    + intros Ha. rewrite Hrun, Ha. cbn [defined andb]. rewrite Hother.
      eexists. split; [reflexivity|]. split; reflexivity.
  - intros r w'. rewrite Hrun.
    destruct (defined addr && includes "address" (ToString addr)); [discriminate|].
    destruct (if is_string code "XRP" then _ else _) as [[address tag]|e]; [|discriminate].
    intros [= <- <-]. reflexivity.
Qed.

(** *** The request signer *)

Lemma lookup_absent (k : string) (o : dict) :
  ~ In k (map fst o) -> lookup k o = None.
Proof.
  induction o as [|[k' v] o IH]; cbn [map fst In lookup]; [reflexivity|].
  intros Hout. destruct (String.eqb_spec k' k); [tauto|]. apply IH. tauto.
Qed.

(** Writing the properties of [b] over [a]: a key of [b] carries the value
    [b] gives it, any other key keeps the value of [a]. *)
Lemma lookup_extend (k : string) (b a : dict) :
  NoDup (map fst b) ->
  lookup k (fold_left (fun acc kv => assign (fst kv) (snd kv) acc) b a)
  = match lookup k b with
    | Some v => Some v
    | None => lookup k a
    end.
Proof.
  revert a. induction b as [|[k0 v0] b IH]; intros a Hnodup; cbn [fold_left lookup fst snd].
  - reflexivity.
  - cbn [map fst] in Hnodup. inversion Hnodup as [|? ? Hfresh Hrest]; subst.
    rewrite (IH _ Hrest). destruct (String.eqb_spec k0 k) as [->|Hne].
    + rewrite (lookup_absent _ _ Hfresh). apply lookup_assign_same.
    + destruct (lookup k b); [reflexivity|]. apply lookup_assign_other. congruence.
Qed.

Lemma NoDup_omit (o : dict) (keys : list string) :
  NoDup (map fst o) ->
  NoDup (map fst (filter (fun kv => negb (existsb (String.eqb (fst kv)) keys)) o)).
Proof.
  induction o as [|[k v] o IH]; cbn [map fst filter]; [trivial|].
  intros Hnodup. inversion Hnodup as [|? ? Hfresh Hrest]; subst.
  destruct (negb (existsb (String.eqb k) keys)); cbn [map fst]; [|now apply IH].
  constructor; [|now apply IH].
  intros Hin. apply Hfresh. apply in_map_iff in Hin. destruct Hin as ([k' v'] & <- & Hin).
  apply filter_In in Hin. apply in_map_iff. exists (k', v'). tauto.
Qed.

(** C8: without credentials a private request fails with
    [AuthenticationError]; with them the descriptor carries the URL-encoded
    parameters extended with a nonce as its body, the API key as [Key], the
    HMAC-SHA512 of the body under the secret as [Sign] and the form content
    type; a public request gets its remaining parameters as a query string
    and keeps the body and headers it was given. *)
Theorem sign_request :
  forall (path : string) (method params headers body : value) (w : exchange_state),
    let query := own_props (omit params (extractParams path)) in
    (truthy (apiKey w) = false \/ truthy (secret w) = false ->
       exists message,
         sign path "private" method params headers body w
         = (Throw (Raise AuthenticationError message), w)
         /\ kind_of AuthenticationError = Some Kind.AuthenticationError)
    /\ (truthy (apiKey w) = true -> truthy (secret w) = true ->
          let n := fst (nonce w) in
          let w' := snd (nonce w) in
          let form := own_props (extend (VObj [("nonce", n)]) (VObj query)) in
          let payload := VStr (urlencode form) in
          exists r,
            sign path "private" method params headers body w = (Return r, w')
            /\ member r "url"
               = VStr ("https://data.gate.io/api2/1/private/" ++ implodeParams path params)
            /\ member r "method" = method
            /\ member r "body" = payload
            /\ member (member r "headers") "Key" = apiKey w'
            /\ member (member r "headers") "Sign"
               = hmac (encode payload) (encode (secret w')) "sha512"
            /\ member (member r "headers") "Content-Type"
               = VStr "application/x-www-form-urlencoded"
            /\ (NoDup (map fst (own_props params)) ->
                has_key "nonce" form = true
                /\ (has_key "nonce" query = false -> lookup "nonce" form = Some n)
                /\ (forall k, k <> "nonce" -> lookup k form = lookup k query)))
    /\ (exists r,
          sign path "public" method params headers body w = (Return r, w)
          /\ member r "url"
             = (let url := "https://data.gate.io/api2/1/" ++ implodeParams path params in
                match query with
                | [] => VStr url
                | _ :: _ => VStr (url ++ "?" ++ urlencode query)
                end)
          /\ member r "method" = method
          /\ member r "body" = body
          /\ member r "headers" = headers).
Proof.
  intros path method params headers body w query. split; [|split].
  - intros Hmissing. unfold sign, bind, checkRequiredCredentials.
    change (String.eqb "private" "public") with false. cbv beta iota.
    destruct (truthy (apiKey w)) eqn:Hkey; cbn [negb].
    + destruct Hmissing as [Hm|Hm]; [discriminate|]. rewrite Hm. cbn [negb]. eauto.
    + eauto.
  - intros Hkey Hsecret n w' form payload.
    unfold sign, bind, checkRequiredCredentials.
    change (String.eqb "private" "public") with false.
    change (String.eqb "private" "private") with true. cbv beta iota.
    rewrite Hkey, Hsecret. cbn [negb].
    subst n w'. destruct (nonce w) as [n w'] eqn:Hnonce. cbn [fst snd] in *.
    unfold gets, ret. eexists. split; [reflexivity|].
    repeat (split; [reflexivity|]).
    intros Hnodup. subst form. unfold extend. cbn [own_props].
    assert (Hq : NoDup (map fst query)) by (apply NoDup_omit; exact Hnodup).
    assert (Hform : forall k,
      lookup k (fold_left (fun acc kv => assign (fst kv) (snd kv) acc) query [("nonce", n)])
      = match lookup k query with
        | Some v => Some v
        | None => lookup k [("nonce", n)]
        end) by (intros k; apply lookup_extend; exact Hq).
    split; [|split].
    + unfold has_key. rewrite Hform. destruct (lookup "nonce" query); reflexivity.
    + unfold has_key. intros Hno. rewrite Hform.
      destruct (lookup "nonce" query); [discriminate|reflexivity].
    + intros k Hk. rewrite Hform. destruct (lookup k query); [reflexivity|].
      cbn [lookup]. destruct (String.eqb_spec "nonce" k); [congruence|reflexivity].
  - unfold sign. change (String.eqb "public" "private") with false.
    change (String.eqb "public" "public") with true. cbv iota.
    fold query. unfold ret. eexists. split; [reflexivity|].
    split; [|repeat split; reflexivity].
    destruct query; reflexivity.
Qed.

(** ** Further properties of the code *)

(** *** [request] *)

(** X1: [request] hands exactly one request to the transport and then
    judges the response by its [result]: a response object passes unchanged
    when it has no [result], when [result] is the text "true", or when it is
    a truthy value other than text, and is rejected with [ExchangeError]
    and the serialized response otherwise; an array passes; a response that
    is not an object makes [request] itself fail with a [TypeError]. *)
Theorem request_verdict :
  forall (path api method : string) (params headers body response : value)
         (w w' : exchange_state),
    transport (dispatched path api method params) (sent (dispatched path api method params) w)
    = (Return response, w') ->
    let run := request path api method params headers body w in
    (forall o, response = VObj o ->
       run = if result_accepted o
             then (Return response, w')
             else (Throw (Raise ExchangeError ("gateio " ++ json response)), w'))
    /\ (forall l, response = VArr l -> run = (Return response, w'))
    /\ (prop response "length" = VUndefined -> (forall o, response <> VObj o) ->
        exists message, run = (Throw (Raise TypeError message), w')).
Proof.
  intros path api method params headers body response w w' Hreply run.
  subst run. unfold request, bind, fetch2. fold (dispatched path api method params).
  rewrite Hreply. unfold lift. split; [|split].
  - intros o ->. rewrite js_in_object. unfold result_accepted, has_key. cbn [member].
    change (id ++ " " ++ json (VObj o)) with ("gateio " ++ json (VObj o)).
    unfold throw, ret.
    destruct (lookup "result" o) as [[| |b|x|r|l|o']|]; cbv beta iota zeta;
      cbn [defined truthy negb]; try reflexivity.
    + destruct b; reflexivity.
    + destruct (PrimFloat.is_zero x || is_nan x)%bool; reflexivity.
    + destruct (String.eqb r "true"); reflexivity.
  - intros l ->. cbn [js_in array_index]. reflexivity.
  - intros Hlen Hobj. destruct response; cbn [js_in]; eauto.
    + cbn in Hlen. discriminate.
    + exfalso. eapply Hobj. reflexivity.
Qed.

(** *** The error classifier and its tables *)

Lemma is_string_true (v : value) (lit : string) :
  is_string v lit = true -> v = VStr lit.
Proof.
  destruct v; cbn [is_string]; try discriminate.
  intros H. apply String.eqb_eq in H. now subst.
Qed.

(** Every code the table of [exceptions] classifies has a description in
    [errorCodeNames], and the table holds four classes only. *)
Lemma exceptions_named (ec : string) (exception : error_class) :
  table_get ec exceptions = Some exception ->
  In exception [DDoSProtection; NotSupported; OrderNotFound; InsufficientFunds]
  /\ exists name, table_get ec errorCodeNames = Some name.
Proof.
  unfold exceptions. cbn [table_get].
  repeat match goal with
         | |- context [String.eqb ?k ec] => destruct (String.eqb_spec k ec) as [<-|_]
         end;
    intros [= <-]; (split; [cbn [In]; tauto|vm_compute; eauto]).
Qed.

(** X2: whatever the body, what the classifier raises is one of three
    things.  A [SyntaxError], for a body that starts with a brace and is
    not JSON.  For a parsed body whose result reads "false" and whose code
    is in the table of [exceptions]: the class of the table, which is one
    of [DDoSProtection], [NotSupported], [OrderNotFound],
    [InsufficientFunds], with the description of the code in
    [errorCodeNames] as message, never the [message] of the body.  For
    such a body whose code is instead a name every object inherits, which
    the test [errorCode in exceptions] finds as well: a [TypeError], or,
    under "constructor", the function [Object] thrown as it is. *)
Theorem handleErrors_raises :
  forall (code reason url method headers : value) (body : string)
         (c : error_class) (m : string),
    handleErrors code reason url method headers body = Throw (Raise c m) ->
    (c = SyntaxError /\ JSON_parse body = None)
    \/ (exists parsed ec,
          JSON_parse body = Some parsed
          /\ safeString parsed "result" (VStr "") = VStr "false"
          /\ safeString parsed "code" VUndefined = VStr ec
          /\ ((table_get ec exceptions = Some c
               /\ table_get ec errorCodeNames = Some m
               /\ In c [DDoSProtection; NotSupported; OrderNotFound; InsufficientFunds])
              \/ (table_get ec exceptions = None
                  /\ exists i,
                      table_get ec Object_prototype = Some i
                      /\ ((i <> ObjectFunction /\ c = TypeError)
                          \/ (i = ObjectFunction /\ ec = "constructor"
                              /\ c = ThrownValue))))).
Proof.
  intros code reason url method headers body c m H. unfold handleErrors in H.
  destruct (Nat.leb (String.length body) 0); [discriminate|].
  destruct (negb (is_string (member (VStr body) "0") "{")); [discriminate|].
  destruct (JSON_parse body) as [parsed|] eqn:Hparse.
  - right.
    destruct (is_string (safeString parsed "result" (VStr "")) "false") eqn:Hresult;
      cbn [negb] in H; [|discriminate].
    apply is_string_true in Hresult.
    destruct (safeString_cases parsed "code" VUndefined) as [Hc|[ec Hc]];
      rewrite Hc in H; cbn [defined ToString] in H; [discriminate|].
    exists parsed, ec. split; [reflexivity|]. split; [exact Hresult|].
    split; [exact Hc|].
    unfold table_read in H.
    destruct (table_get ec exceptions) as [exception|] eqn:Hex.
    + left. destruct (exceptions_named _ _ Hex) as (Hin & name & Hname).
      rewrite Hname in H. cbn [throw_new argument_text ToString] in H.
      injection H as <- <-. tauto.
    + right. split; [reflexivity|].
      destruct (table_get ec Object_prototype) as [i|] eqn:Hinherited; [|discriminate].
      destruct (inherited_not_listed _ _ Hinherited) as [_ Hname].
      rewrite Hname in H. exists i. split; [reflexivity|].
      destruct i; cbn [throw_new] in H; injection H as <- _.
      * left. split; [discriminate|reflexivity].
      * right. split; [reflexivity|]. split; [|reflexivity].
        revert Hinherited. unfold Object_prototype. cbn [table_get].
        destruct (String.eqb_spec "constructor" ec) as [<-|_]; [reflexivity|].
        repeat match goal with
               | |- context [String.eqb ?k ec] => destruct (String.eqb k ec)
               end; discriminate.
      * left. split; [discriminate|reflexivity].
  - left. injection H as <- _. auto.
Qed.

(** *** The catalog, record by record *)







(** *** The normalizers on missing input *)

Lemma nullish_throws (v : value) (k : string) :
  nullish v = true -> js_get v k = Throw (Raise TypeError "Cannot read properties").
Proof.
  destruct v; cbn [nullish js_get]; try discriminate; reflexivity.
Qed.

Lemma parseOrder_needs (order market : value) :
  (nullish order || nullish market = true ->
     parseOrder order market = Throw (Raise TypeError "Cannot read properties"))
  /\ (nullish order || nullish market = false ->
      exists r, parseOrder order market = Return r).
Proof.
  split.
  - intros H. unfold parseOrder.
    destruct (nullish market) eqn:Hm.
    + rewrite (nullish_throws _ "symbol" Hm). reflexivity.
    + rewrite Bool.orb_false_r in H.
      rewrite (nullish_member _ Hm). cbn [obind].
      rewrite !(nullish_throws _ _ H). reflexivity.
  - intros H. apply Bool.orb_false_iff in H. destruct H as [Ho Hm].
    eexists.
    apply parseOrder_returns with (symbol := member market "symbol")
                                  (orderNumber := member order "orderNumber");
      now apply nullish_member.
Qed.

(** X5: the order normalizer returns exactly when it is given both an
    order and a market: with either of them [undefined] or [null] (the
    market is [undefined] when the caller leaves it out) it fails with a
    [TypeError]; otherwise it returns an order of type "limit" that carries
    the record as [info], its [orderNumber], [status] and [type] as id,
    status and side, the symbol of the market, and neither cost nor
    trades. *)
Theorem parseOrder_needs_order_and_market :
  forall order market : value,
    (nullish order || nullish market = true ->
       parseOrder order market = Throw (Raise TypeError "Cannot read properties"))
    /\ (nullish order || nullish market = false ->
        exists r,
          parseOrder order market = Return r
          /\ member r "info" = order
          /\ member r "id" = member order "orderNumber"
          /\ member r "status" = member order "status"
          /\ member r "side" = member order "type"
          /\ member r "symbol" = member market "symbol"
          /\ member r "type" = VStr "limit"
          /\ member r "average" = safeFloat order "filledRate" VUndefined
          /\ member r "cost" = VUndefined
          /\ member r "trades" = VUndefined).
Proof.
  intros order market. split.
  - intros H. unfold parseOrder.
    destruct (nullish market) eqn:Hm.
    + rewrite (nullish_throws _ "symbol" Hm). reflexivity.
    + rewrite Bool.orb_false_r in H.
      rewrite (nullish_member _ Hm). cbn [obind].
      rewrite !(nullish_throws _ _ H). reflexivity.
  - intros H. apply Bool.orb_false_iff in H. destruct H as [Ho Hm].
    eexists. split.
    + apply parseOrder_returns with (symbol := member market "symbol")
                                    (orderNumber := member order "orderNumber");
        now apply nullish_member.
    + repeat (split; [reflexivity|]). reflexivity.
Qed.

Lemma sub_nan (x : float) : (x - nan)%float = nan.
Proof.
  apply Prim2SF_inj. rewrite sub_spec.
  change (Prim2SF nan) with S754_nan. destruct (Prim2SF x); reflexivity.
Qed.

Lemma nan_sub (x : float) : (nan - x)%float = nan.
Proof.
  apply Prim2SF_inj. rewrite sub_spec.
  change (Prim2SF nan) with S754_nan. reflexivity.
Qed.

(** X6: numbers the order record does not carry turn into NaN rather
    than [undefined] where the normalizer computes with them: an order
    without a numeric [timestamp] has the timestamp NaN, and an order
    without a numeric [filledAmount], or without any amount, has its
    [remaining] NaN while [filled], or [amount], itself is [undefined]. *)
Theorem parseOrder_not_a_number :
  forall order market : value,
    nullish order = false ->
    nullish market = false ->
    exists r,
      parseOrder order market = Return r
      /\ (safeInteger order "timestamp" VUndefined = VUndefined ->
          member r "timestamp" = VNum nan
          /\ member r "datetime" = iso8601 (VNum nan))
      /\ (safeFloat order "filledAmount" VUndefined = VUndefined ->
          member r "filled" = VUndefined /\ member r "remaining" = VNum nan)
      /\ (member r "amount" = VUndefined -> member r "remaining" = VNum nan).
Proof.
  intros order market Ho Hm. eexists. split.
  - apply parseOrder_returns with (symbol := member market "symbol")
                                  (orderNumber := member order "orderNumber");
      now apply nullish_member.
  - split; [|split].
    + intros Hts.
      assert (Hstamp : js_mul (safeInteger order "timestamp" VUndefined) (VNum 1000) = VNum nan)
        by (rewrite Hts; reflexivity).
      split.
      * exact Hstamp.
      * change (iso8601 (js_mul (safeInteger order "timestamp" VUndefined) (VNum 1000))
                = iso8601 (VNum nan)).
        now rewrite Hstamp.
    + intros Hfilled. split; [exact Hfilled|].
      change (js_sub (if truthy (safeFloat order "initialAmount" VUndefined)
                      then safeFloat order "initialAmount" VUndefined
                      else safeFloat order "amount" VUndefined)
                     (safeFloat order "filledAmount" VUndefined) = VNum nan).
      rewrite Hfilled. unfold js_sub. cbn [ToNumber]. now rewrite sub_nan.
    + intros Hamount.
      change ((if truthy (safeFloat order "initialAmount" VUndefined)
               then safeFloat order "initialAmount" VUndefined
               else safeFloat order "amount" VUndefined) = VUndefined) in Hamount.
      change (js_sub (if truthy (safeFloat order "initialAmount" VUndefined)
                      then safeFloat order "initialAmount" VUndefined
                      else safeFloat order "amount" VUndefined)
                     (safeFloat order "filledAmount" VUndefined) = VNum nan).
      rewrite Hamount. unfold js_sub. cbn [ToNumber]. now rewrite nan_sub.
Qed.


(** *** Parameters of a signed request *)

Lemma existsb_eqb (k : string) (keys : list string) :
  existsb (String.eqb k) keys = true <-> In k keys.
Proof.
  rewrite existsb_exists. split.
  - intros (x & Hin & Hx). apply String.eqb_eq in Hx. now subst.
  - intros Hin. exists k. split; [exact Hin|apply String.eqb_refl].
Qed.

Lemma lookup_omit (k : string) (keys : list string) (o : dict) :
  lookup k (filter (fun kv => negb (existsb (String.eqb (fst kv)) keys)) o)
  = if existsb (String.eqb k) keys then None else lookup k o.
Proof.
  induction o as [|[k' v] o IH]; cbn [filter lookup fst].
  - now destruct (existsb _ keys).
  - destruct (String.eqb_spec k' k) as [->|Hne].
    + destruct (existsb (String.eqb k) keys) eqn:E; cbn [negb lookup].
      * rewrite IH, ?E. reflexivity.
      * now rewrite String.eqb_refl.
    + destruct (negb (existsb (String.eqb k') keys)); cbn [lookup]; [|exact IH].
      destruct (String.eqb_spec k' k); [contradiction|exact IH].
Qed.

(** X8: what a signed request carries of the caller's parameters: a
    parameter the path consumes as a placeholder appears neither in the
    query string of a public request nor in the form of a private one;
    every other parameter appears in both with the value the caller gave,
    so that a [nonce] the caller supplies replaces the generated one. *)
Theorem sign_parameters :
  forall (path : string) (method params headers body : value) (w : exchange_state),
    truthy (apiKey w) = true ->
    truthy (secret w) = true ->
    NoDup (map fst (own_props params)) ->
    let n := fst (nonce w) in
    let query := own_props (omit params (extractParams path)) in
    let form := own_props (extend (VObj [("nonce", n)]) (VObj query)) in
    exists r r',
      sign path "private" method params headers body w = (Return r, snd (nonce w))
      /\ member r "body" = VStr (urlencode form)
      /\ sign path "public" method params headers body w = (Return r', w)
      /\ (query <> [] ->
          member r' "url"
          = VStr (("https://data.gate.io/api2/1/" ++ implodeParams path params)
                  ++ "?" ++ urlencode query))
      /\ (forall k, In k (extractParams path) ->
            lookup k query = None /\ (k <> "nonce" -> lookup k form = None))
      /\ (forall k v, ~ In k (extractParams path) ->
            lookup k (own_props params) = Some v ->
            lookup k query = Some v /\ lookup k form = Some v).
Proof.
  intros path method params headers body w Hkey Hsecret Hnodup n query form.
  assert (Hquery : forall k,
    lookup k query = if existsb (String.eqb k) (extractParams path)
                     then None else lookup k (own_props params)).
  { intros k. subst query. unfold omit. cbn [own_props]. apply lookup_omit. }
  assert (Hq : NoDup (map fst query)) by (apply NoDup_omit; exact Hnodup).
  assert (Hform : forall k,
    lookup k form = match lookup k query with
                    | Some v => Some v
                    | None => lookup k [("nonce", n)]
                    end).
  { intros k. subst form. unfold extend. cbn [own_props]. apply lookup_extend. exact Hq. }
  subst form n. destruct (nonce w) as [n w'] eqn:Hnonce.
  cbn [fst snd] in Hform |- *.
  exists (VObj [("url", VStr ("https://data.gate.io/api2/1/private/"
                               ++ implodeParams path params));
                ("method", method);
                ("body", VStr (urlencode (own_props (extend (VObj [("nonce", n)]) (VObj query)))));
                ("headers",
                 VObj [("Key", apiKey w');
                       ("Sign",
                        hmac (encode (VStr (urlencode
                                              (own_props (extend (VObj [("nonce", n)])
                                                                 (VObj query))))))
                             (encode (secret w')) "sha512");
                       ("Content-Type", VStr "application/x-www-form-urlencoded")])]).
  eexists. split; [|split; [|split; [|split; [|split]]]].
  - unfold sign, bind, checkRequiredCredentials.
    change (String.eqb "private" "public") with false.
    change (String.eqb "private" "private") with true. cbv beta iota.
    rewrite Hkey, Hsecret. cbn [negb]. rewrite Hnonce.
    unfold gets, ret. reflexivity.
  - reflexivity.
  - unfold sign. change (String.eqb "public" "private") with false.
    change (String.eqb "public" "public") with true. cbv iota. reflexivity.
  - intros Hsome. fold query. destruct query; [congruence|reflexivity].
  - intros k Hin. apply existsb_eqb in Hin. split.
    + now rewrite Hquery, Hin.
    + intros Hk. rewrite Hform, Hquery, Hin. cbn [lookup].
      destruct (String.eqb_spec "nonce" k); [congruence|reflexivity].
  - intros k v Hout Hv.
    assert (Hk : lookup k query = Some v).
    { rewrite Hquery. destruct (existsb (String.eqb k) (extractParams path)) eqn:E; [|exact Hv].
      apply existsb_eqb in E. contradiction. }
    split; [exact Hk|]. now rewrite Hform, Hk.
Qed.

(** *** The scope of a balance *)


(** *** The fields of a ticker *)

Lemma truthy_member (v : value) (k : string) :
  truthy v = true -> js_get v k = Return (member v k).
Proof.
  destruct v; cbn [truthy js_get]; try discriminate; reflexivity.
Qed.

(** The ticker normalizer always returns, and leaves the state alone. *)
Lemma parseTicker_runs (ticker market : value) (w : exchange_state) :
  parseTicker ticker market w = (Return (parsed_ticker ticker market w), w).
Proof.
  unfold parsed_ticker. destruct (truthy_market market) as [symbol Hsym].
  unfold parseTicker, milliseconds, bind, gets, lift, ret. rewrite Hsym.
  destruct (defined (safeFloat ticker "last" VUndefined)
            && defined (safeFloat ticker "percentChange" VUndefined)); reflexivity.
Qed.

(** X10: the ticker normalizer never fails, whatever it is given, and never
    touches the state; the ticker is stamped with the clock, not with a time
    of the record; its symbol is that of the market, and [undefined] without
    a market; and the two volumes are crossed: [baseVolume] is read from
    the [quoteVolume] of the record and [quoteVolume] from its
    [baseVolume]. *)
Theorem parseTicker_fields :
  forall (ticker market : value) (w : exchange_state),
  exists t,
    parseTicker ticker market w = (Return t, w)
    /\ member t "timestamp" = VNum (clock w)
    /\ member t "datetime" = iso8601 (VNum (clock w))
    /\ member t "symbol" = (if truthy market then member market "symbol" else VUndefined)
    /\ member t "baseVolume" = safeFloat ticker "quoteVolume" VUndefined
    /\ member t "quoteVolume" = safeFloat ticker "baseVolume" VUndefined
    /\ member t "high" = safeFloat ticker "high24hr" VUndefined
    /\ member t "low" = safeFloat ticker "low24hr" VUndefined
    /\ member t "bid" = safeFloat ticker "highestBid" VUndefined
    /\ member t "ask" = safeFloat ticker "lowestAsk" VUndefined
    /\ member t "info" = ticker.
Proof.
  intros ticker market w.
  assert (Hsym : (if truthy market then js_get market "symbol" else Return VUndefined)
                 = Return (if truthy market then member market "symbol" else VUndefined)).
  { destruct (truthy market) eqn:T; [now apply truthy_member|reflexivity]. }
  unfold parseTicker, milliseconds, bind, gets, lift, ret. rewrite Hsym.
  destruct (defined (safeFloat ticker "last" VUndefined)
            && defined (safeFloat ticker "percentChange" VUndefined));
    eexists; (split; [reflexivity|]); repeat (split; [reflexivity|]); reflexivity.
Qed.

(** *** A response object under [request] *)

Lemma request_object (path api method : string) (params headers body : value)
      (o : dict) (w w' : exchange_state) :
  transport (dispatched path api method params) (sent (dispatched path api method params) w)
  = (Return (VObj o), w') ->
  request path api method params headers body w
  = if result_accepted o
    then (Return (VObj o), w')
    else (Throw (Raise ExchangeError ("gateio " ++ json (VObj o))), w').
Proof.
  intros Hreply.
  unfold request, bind, fetch2. fold (dispatched path api method params).
  rewrite Hreply. unfold lift. rewrite js_in_object.
  unfold result_accepted, has_key. cbn [member].
  change (id ++ " " ++ json (VObj o)) with ("gateio " ++ json (VObj o)).
  unfold throw, ret.
  destruct (lookup "result" o) as [[| |b|x|r|l|o']|]; cbv beta iota zeta;
    cbn [defined truthy negb]; try reflexivity.
  - destruct b; reflexivity.
  - destruct (PrimFloat.is_zero x || is_nan x)%bool; reflexivity.
  - destruct (String.eqb r "true"); reflexivity.
Qed.

(** *** Own trades and missing addresses, as the code has them *)

(** C1, as the code has it: the method of the class that fetches the
    trades of the account hands its records to [parseTrades] with the
    public normalizer.  An own trade is therefore stamped like a public
    one, with the parsed date minus 28,800,000 ms, whatever its
    [time_unix] is: that field is not read, and the stamp [time_unix] times
    1000 of the normalizer for own trades is never applied. *)
Theorem fetchMyTrades_stamps :
  forall (symbol since limit params entry response : value) (w w1 w2 w3 : exchange_state),
    defined symbol = true ->
    loadMarkets w = (Return tt, w1) ->
    market symbol w1 = (Return entry, w2) ->
    nullish entry = false ->
    privatePostTradeHistory (extend (VObj [("currencyPair", member entry "id")]) params) w2
    = (Return response, w3) ->
    nullish response = false ->
    fetchMyTrades symbol since limit params w
    = (parseTrades parseTrade (member response "trades") entry since limit, w3)
    /\ forall (record : dict) (date : string) (t : float),
         lookup "date" record = Some (VStr date) ->
         parse8601 (VStr date) = VNum t ->
         (exists trade,
             parseTrade (VObj record) entry = Return trade
             /\ member trade "timestamp" = VNum (t - 28800000))
         /\ forall time_unix,
              exists trade,
                parseTrade (VObj (assign "time_unix" time_unix record)) entry = Return trade
                /\ member trade "timestamp" = VNum (t - 28800000).
Proof.
  intros symbol since limit params entry response w w1 w2 w3
         Hsymbol Hload Hmarket Hentry Hcall Hresponse.
  split.
  - apply fetchMyTrades_with_symbol with (entry_id := member entry "id") (response := response)
                                         (w1 := w1) (w2 := w2); try assumption;
      now apply nullish_member.
  - intros record date t Hdate Hparse.
    assert (Hstamp : forall fields,
               lookup "date" fields = Some (VStr date) ->
               exists trade,
                 parseTrade (VObj fields) entry = Return trade
                 /\ member trade "timestamp" = VNum (t - 28800000)).
    { intros fields Hfields. unfold parseTrade. cbn [js_get obind member].
      rewrite Hfields, Hparse, (nullish_member _ Hentry). cbn [obind].
      eexists. split; reflexivity. }
    split; [now apply Hstamp|].
    intros time_unix. apply Hstamp.
    rewrite lookup_assign_other by discriminate. exact Hdate.
Qed.

(** C7, as the code has it: when the response carries no address, the
    lookup for the code "XRP" splits the address before it looks whether
    there is one and fails with a [TypeError]; it returns no result, of
    status "none" or other.  For any other code the same response gives a
    result without address and tag, of status "none". *)
Theorem queryDepositAddress_without_address :
  forall (method : string) (code params : value) (w w1 w2 w3 : exchange_state)
         (entry entry_id response : value),
    loadMarkets w = (Return tt, w1) ->
    currency code w1 = (Return entry, w2) ->
    js_get entry "id" = Return entry_id ->
    call ("privatePost" ++ method ++ "Address")
         (extend (VObj [("currency", entry_id)]) params) w2 = (Return response, w3) ->
    safeString response "addr" VUndefined = VUndefined ->
    let run := queryDepositAddress method code params w in
    (code = VStr "XRP" ->
       run = (Throw (Raise TypeError "Cannot read properties"), w3))
    /\ (is_string code "XRP" = false ->
        exists r,
          run = (Return r, w3)
          /\ member r "address" = VUndefined
          /\ member r "tag" = VUndefined
          /\ member r "status" = VStr "none").
Proof.
  intros method code params w w1 w2 w3 entry entry_id response
         Hload Hcurrency Hid Hcall Hmissing run.
  assert (Hrun : run =
    match (if is_string code "XRP"
           then let* a := receiver VUndefined in
                let parts := split_limit "/" 2 a in
                Return (at_index parts 0, at_index parts 1)
           else Return (VUndefined, VUndefined)) with
    | Return (address, tag) =>
        (Return (VObj [("currency", entry);
                       ("address", address);
                       ("tag", tag);
                       ("status", if defined address then VStr "ok" else VStr "none");
                       ("info", response)]), w3)
    | Throw e => (Throw e, w3)
    end).
  { subst run. unfold queryDepositAddress, bind. rewrite Hload, Hcurrency.
    unfold lift at 1. rewrite Hid, Hcall, Hmissing. cbn [defined andb].
    unfold lift, ret.
    destruct (if is_string code "XRP" then _ else _) as [[address tag]|e]; reflexivity. }
  split.
  - intros ->. rewrite Hrun. reflexivity.
  - intros Hother. rewrite Hrun, Hother.
    eexists. split; [reflexivity|]. split; [reflexivity|]. split; reflexivity.
Qed.

End Properties.

(** ** Properties of the remaining methods *)

Section MethodProperties.
Context {rt : Runtime} {self : Exchange} {more : Trading}.

(** *** [fetchTickers] *)

(** One turn of the loop: a key with a base and a quote part files its
    ticker, any other key makes the turn throw. *)
Lemma fetchTickers_entry_spec (tickers : value) (by_symbol by_id result : dict)
      (id : string) (w : exchange_state) :
  nullish tickers = false ->
  markets w = VObj by_symbol ->
  markets_by_id w = VObj by_id ->
  fetchTickers_entry tickers result id w
  = if valid_ticker_key id
    then (Return (file_ticker tickers by_symbol by_id w result id), w)
    else (Throw (Raise TypeError "Cannot read properties"), w).
Proof.
  intros Ht Hms Hbys.
  unfold fetchTickers_entry, valid_ticker_key, file_ticker, ticker_market, ticker_symbol,
    bind, lift.
  destruct (split "_" id) as [|b [|q rest]];
    cbn [at_index nth_error receiver List.length Nat.leb]; try reflexivity.
  rewrite (nullish_member _ Ht). unfold gets. rewrite Hms, Hbys, !js_in_object.
  unfold has_key. cbn [member].
  destruct (lookup (commonCurrencyCode (toUpperCase b) ++ "/" ++ commonCurrencyCode (toUpperCase q))
                   by_symbol);
    destruct (lookup id by_id); rewrite parseTicker_runs; reflexivity.
Qed.

Lemma fetchTickers_loop (tickers : value) (by_symbol by_id : dict) (ids : list string)
      (result : dict) (w : exchange_state) :
  nullish tickers = false ->
  markets w = VObj by_symbol ->
  markets_by_id w = VObj by_id ->
  mfold (fetchTickers_entry tickers) ids result w
  = if forallb valid_ticker_key ids
    then (Return (fold_left (file_ticker tickers by_symbol by_id w) ids result), w)
    else (Throw (Raise TypeError "Cannot read properties"), w).
Proof.
  intros Ht Hms Hbys. revert result.
  induction ids as [|id ids IH]; intros result; cbn [mfold forallb fold_left]; [reflexivity|].
  unfold bind. rewrite (fetchTickers_entry_spec _ _ _ _ _ _ Ht Hms Hbys).
  destruct (valid_ticker_key id); cbn [andb]; [apply IH|reflexivity].
Qed.

Lemma ticker_filed_elsewhere (tickers : value) (by_symbol by_id : dict) (w : exchange_state)
      (ids : list string) (result : dict) (symbol : string) :
  ~ In symbol (map ticker_symbol ids) ->
  lookup symbol (fold_left (file_ticker tickers by_symbol by_id w) ids result)
  = lookup symbol result.
Proof.
  revert result. induction ids as [|id ids IH]; intros result Hout; cbn [fold_left].
  - reflexivity.
  - cbn [map In] in Hout. rewrite IH by tauto. unfold file_ticker.
    apply lookup_assign_other. intros ->. tauto.
Qed.

Lemma ticker_filed (tickers : value) (by_symbol by_id : dict) (w : exchange_state)
      (ids : list string) (result : dict) (id : string) :
  NoDup (map ticker_symbol ids) ->
  In id ids ->
  lookup (ticker_symbol id) (fold_left (file_ticker tickers by_symbol by_id w) ids result)
  = Some (parsed_ticker (member tickers id) (ticker_market by_symbol by_id id) w).
Proof.
  revert result. induction ids as [|i ids IH]; intros result Hnodup Hin; [contradiction|].
  cbn [map] in Hnodup. inversion Hnodup as [|? ? Hfresh Hrest]; subst.
  cbn [fold_left]. destruct Hin as [->|Hin].
  - rewrite ticker_filed_elsewhere by exact Hfresh. apply lookup_assign_same.
  - now apply IH.
Qed.

(** X11: over a response object, [fetchTickers] fails with a [TypeError]
    as soon as one key has no "_" in it, and otherwise returns an object
    keyed by the symbols derived from the keys and by nothing else; when the
    symbols are distinct, the ticker under a symbol is the record of its
    key, normalized with the market registered under the pair id, else with
    the one registered under the symbol, else without a market. *)
Theorem fetchTickers_files :
  forall (symbols params : value) (w w1 w2 : exchange_state) (o by_symbol by_id : dict),
    loadMarkets w = (Return tt, w1) ->
    publicGetTickers params w1 = (Return (VObj o), w2) ->
    markets w2 = VObj by_symbol ->
    markets_by_id w2 = VObj by_id ->
    let ids := map fst o in
    (forallb valid_ticker_key ids = false ->
       fetchTickers symbols params w
       = (Throw (Raise TypeError "Cannot read properties"), w2))
    /\ (forallb valid_ticker_key ids = true ->
        exists result,
          fetchTickers symbols params w = (Return (VObj result), w2)
          /\ (forall k, has_key k result = true -> In k (map ticker_symbol ids))
          /\ (NoDup (map ticker_symbol ids) ->
              forall id, In id ids ->
                exists t,
                  lookup (ticker_symbol id) result = Some t
                  /\ parseTicker (member (VObj o) id) (ticker_market by_symbol by_id id) w2
                     = (Return t, w2))).
Proof.
  intros symbols params w w1 w2 o by_symbol by_id Hload Hcall Hms Hbys ids.
  assert (Hrun : fetchTickers symbols params w
                 = if forallb valid_ticker_key ids
                   then (Return (VObj (fold_left (file_ticker (VObj o) by_symbol by_id w2)
                                                 ids [])), w2)
                   else (Throw (Raise TypeError "Cannot read properties"), w2)).
  { unfold fetchTickers, bind. rewrite Hload, Hcall. unfold lift. cbn [Object_keys].
    fold ids. rewrite (fetchTickers_loop (VObj o) by_symbol by_id ids [] w2 eq_refl Hms Hbys).
    destruct (forallb valid_ticker_key ids); reflexivity. }
  split.
  - intros Hbad. now rewrite Hrun, Hbad.
  - intros Hgood. rewrite Hrun, Hgood. eexists. split; [reflexivity|]. split.
    + intros k Hk.
      destruct (in_dec string_dec k (map ticker_symbol ids)) as [Hin|Hout]; [exact Hin|].
      unfold has_key in Hk. rewrite ticker_filed_elsewhere in Hk by exact Hout. discriminate.
    + intros Hnodup id Hin. eexists. split.
      * apply ticker_filed; assumption.
      * apply parseTicker_runs.
Qed.

(** *** [createOrder] *)

Lemma member_extend (k : string) (a : dict) (b : value) :
  NoDup (map fst (own_props b)) ->
  member (extend (VObj a) b) k
  = match lookup k (own_props b) with
    | Some v => v
    | None => member (VObj a) k
    end.
Proof.
  intros Hnodup. unfold extend. cbn [member own_props].
  rewrite (lookup_extend _ _ _ Hnodup). now destruct (lookup k (own_props b)).
Qed.

(** X12: [createOrder] rejects a market order with [ExchangeError] before
    anything else happens; for any other type it looks the market up and
    calls the endpoint named after the capitalized side, failing with a
    [TypeError] and without a request when there is no such endpoint; the
    order it returns is the response laid over the defaults, so that it
    is of type "limit", has the symbol of the market, has status "open" and
    the given side unless the response says otherwise, and reports the
    requested amount when the response names none; its price is that of the
    response, and [undefined] when the response has no rate, whatever price
    was asked. *)
Theorem createOrder_places_limit_order :
  forall (symbol type : value) (side : string) (amount price params : value)
         (w : exchange_state),
    (type = VStr "market" ->
       createOrder symbol type side amount price params w
       = (Throw (Raise ExchangeError "gateio allows limit orders only"), w))
    /\ (forall (w1 w2 : exchange_state) (entry : value),
          is_string type "market" = false ->
          loadMarkets w = (Return tt, w1) ->
          market symbol w1 = (Return entry, w2) ->
          nullish entry = false ->
          let order :=
            extend (VObj [("currencyPair", member entry "id");
                          ("rate", price);
                          ("amount", amount)]) params in
          let endpoint := "privatePost" ++ capitalize side in
          (table_get endpoint api_table = None ->
             createOrder symbol type side amount price params w
             = (Throw (Raise TypeError "this[method] is not a function"), w2))
          /\ (forall (w3 : exchange_state) (response : value),
                call endpoint order w2 = (Return response, w3) ->
                NoDup (map fst (own_props response)) ->
                exists r,
                  createOrder symbol type side amount price params w = (Return r, w3)
                  /\ member r "type" = VStr "limit"
                  /\ member r "symbol" = member entry "symbol"
                  /\ member r "status"
                     = match lookup "status" (own_props response) with
                       | Some v => v
                       | None => VStr "open"
                       end
                  /\ member r "side"
                     = match lookup "type" (own_props response) with
                       | Some v => v
                       | None => VStr side
                       end
                  /\ member r "id"
                     = match lookup "orderNumber" (own_props response) with
                       | Some v => v
                       | None => VUndefined
                       end
                  /\ (forall x,
                        amount = VNum x -> isFinite x = true -> PrimFloat.is_zero x = false ->
                        lookup "initialAmount" (own_props response) = None ->
                        member r "amount" = VNum x)
                  /\ (lookup "initialRate" (own_props response) = None ->
                      lookup "rate" (own_props response) = None ->
                      member r "price" = VUndefined))).
Proof.
  intros symbol type side amount price params w. split.
  - intros ->. reflexivity.
  - intros w1 w2 entry Htype Hload Hmarket Hentry order endpoint.
    assert (Hrun : createOrder symbol type side amount price params w
                   = match call endpoint order w2 with
                     | (Return response, w3) =>
                         (parseOrder (extend (VObj [("status", VStr "open");
                                                    ("type", VStr side);
                                                    ("initialAmount", amount)])
                                             response)
                                     entry, w3)
                     | (Throw e, w3) => (Throw e, w3)
                     end).
    { unfold createOrder. rewrite Htype. unfold bind. rewrite Hload, Hmarket.
      unfold lift at 1. rewrite (nullish_member _ Hentry). fold order endpoint.
      destruct (call endpoint order w2) as [[response|e] w3]; [|reflexivity].
      unfold lift. now destruct (parseOrder _ entry). }
    split.
    + intros Hnone. rewrite Hrun. unfold call. now rewrite Hnone.
    + intros w3 response Hcall Hnodup. rewrite Hrun, Hcall.
      set (defaults := [("status", VStr "open"); ("type", VStr side);
                        ("initialAmount", amount)]).
      pose proof (fun k => member_extend k defaults response Hnodup) as Ho.
      set (o := extend (VObj defaults) response) in *.
      assert (Hid : js_get o "orderNumber" = Return (member o "orderNumber")) by reflexivity.
      pose proof (parseOrder_returns o entry _ _ (nullish_member _ Hentry "symbol") Hid) as Hr.
      assert (Hprop : forall k, prop o k = member o k) by reflexivity.
      cbv zeta in Hr. rewrite Hr. clearbody o.
      eexists. split; [reflexivity|]. split; [reflexivity|]. split; [reflexivity|].
      split; [|split; [|split; [|split]]].
      * change (member o "status" = match lookup "status" (own_props response) with
                                    | Some v => v
                                    | None => VStr "open"
                                    end).
        rewrite Ho. reflexivity.
      * change (member o "type" = match lookup "type" (own_props response) with
                                  | Some v => v
                                  | None => VStr side
                                  end).
        rewrite Ho. reflexivity.
      * change (member o "orderNumber" = match lookup "orderNumber" (own_props response) with
                                         | Some v => v
                                         | None => VUndefined
                                         end).
        rewrite Ho. reflexivity.
      * intros x -> Hfinite Hnonzero Hnone.
        assert (Hinitial : safeFloat o "initialAmount" VUndefined = VNum x).
        { unfold safeFloat. rewrite Hprop, Ho, Hnone.
          change (member (VObj defaults) "initialAmount") with (VNum x).
          cbv beta iota. now rewrite Hfinite. }
        change ((if truthy (safeFloat o "initialAmount" VUndefined)
                 then safeFloat o "initialAmount" VUndefined
                 else safeFloat o "amount" VUndefined) = VNum x).
        rewrite Hinitial. cbn [truthy]. rewrite Hnonzero.
        unfold isFinite in Hfinite. destruct (PrimFloat.is_nan x); [discriminate|reflexivity].
      * intros Hinitial Hrate.
        assert (Hi : safeFloat o "initialRate" VUndefined = VUndefined).
        { unfold safeFloat. rewrite Hprop, Ho, Hinitial. reflexivity. }
        assert (Hc : safeFloat o "rate" VUndefined = VUndefined).
        { unfold safeFloat. rewrite Hprop, Ho, Hrate. reflexivity. }
        change ((if truthy (safeFloat o "initialRate" VUndefined)
                 then safeFloat o "initialRate" VUndefined
                 else safeFloat o "rate" VUndefined) = VUndefined).
        rewrite Hi, Hc. reflexivity.
Qed.

(** *** [fetchOrder] *)

(** X13: [fetchOrder] returns the [order] of the response as the order
    normalizer reads it with the market of the symbol; a response without
    an [order] makes it fail with a [TypeError]. *)
Theorem fetchOrder_result :
  forall (id symbol params entry response : value) (w w1 w2 w3 : exchange_state),
    loadMarkets w = (Return tt, w1) ->
    market symbol w1 = (Return entry, w2) ->
    nullish entry = false ->
    privatePostGetOrder
      (extend (VObj [("orderNumber", id); ("currencyPair", member entry "id")]) params) w2
    = (Return response, w3) ->
    (nullish response || nullish (member response "order") = true ->
       fetchOrder id symbol params w
       = (Throw (Raise TypeError "Cannot read properties"), w3))
    /\ (nullish response || nullish (member response "order") = false ->
        exists r,
          fetchOrder id symbol params w = (Return r, w3)
          /\ parseOrder (member response "order") entry = Return r
          /\ member r "info" = member response "order"
          /\ member r "symbol" = member entry "symbol").
Proof.
  intros id symbol params entry response w w1 w2 w3 Hload Hmarket Hentry Hcall.
  assert (Hrun : fetchOrder id symbol params w
                 = match (let* order := js_get response "order" in parseOrder order entry) with
                   | Return r => (Return r, w3)
                   | Throw e => (Throw e, w3)
                   end).
  { unfold fetchOrder, bind. rewrite Hload, Hmarket. unfold lift at 1.
    rewrite (nullish_member _ Hentry), Hcall. unfold lift.
    destruct (js_get response "order") as [order|e]; cbn [obind]; [|reflexivity].
    now destruct (parseOrder order entry). }
  split.
  - intros H. rewrite Hrun. destruct (nullish response) eqn:Hr.
    + now rewrite (nullish_throws _ "order" Hr).
    + cbn [orb] in H. rewrite (nullish_member _ Hr). cbn [obind].
      assert (Hn : nullish (member response "order") || nullish entry = true)
        by (now rewrite H).
      now rewrite (proj1 (parseOrder_needs _ _) Hn).
  - intros H. apply Bool.orb_false_iff in H. destruct H as [Hr Ho].
    rewrite Hrun, (nullish_member _ Hr). cbn [obind].
    pose proof (parseOrder_returns (member response "order") entry _ _
                  (nullish_member _ Hentry "symbol")
                  (nullish_member _ Ho "orderNumber")) as Hp.
    cbv zeta in Hp. rewrite Hp.
    eexists. split; [reflexivity|]. split; [reflexivity|]. split; reflexivity.
Qed.

(** *** [fetchTicker] *)

(** X14: [fetchTicker] reads [ticker/{id}] for the pair id of the market
    and never rejects a response the request returned: whatever the
    response holds, the result is the ticker the normalizer makes of it
    with the market of the symbol, with the response as [info]. *)
Theorem fetchTicker_result :
  forall (symbol params entry response : value) (w w1 w2 w3 : exchange_state),
    loadMarkets w = (Return tt, w1) ->
    market symbol w1 = (Return entry, w2) ->
    nullish entry = false ->
    publicGetTickerId (extend (VObj [("id", member entry "id")]) params) w2
    = (Return response, w3) ->
    exists t,
      fetchTicker symbol params w = (Return t, w3)
      /\ parseTicker response entry w3 = (Return t, w3)
      /\ member t "info" = response
      /\ member t "last" = safeFloat response "last" VUndefined.
Proof.
  intros symbol params entry response w w1 w2 w3 Hload Hmarket Hentry Hcall.
  exists (parsed_ticker response entry w3).
  assert (Hrun : parseTicker response entry w3 = (Return (parsed_ticker response entry w3), w3))
    by apply parseTicker_runs.
  split; [|split; [exact Hrun|]].
  - unfold fetchTicker, bind. rewrite Hload, Hmarket. unfold lift.
    rewrite (nullish_member _ Hentry), Hcall. exact Hrun.
  - unfold parsed_ticker. destruct (truthy_market entry) as [sym Hsym].
    unfold parseTicker, milliseconds, bind, gets, lift, ret. rewrite Hsym.
    destruct (defined (safeFloat response "last" VUndefined)
              && defined (safeFloat response "percentChange" VUndefined));
      split; reflexivity.
Qed.

(** *** [cancelOrder] *)

(** X15: [cancelOrder] sends one [cancelOrder] request that carries the
    order number and the pair id of the symbol and nothing of [params], and
    returns the response object as it is when [request] accepts it. *)
Theorem cancelOrder_result :
  forall (id symbol params pair : value) (o : dict) (w w1 w2 w3 : exchange_state),
    loadMarkets w = (Return tt, w1) ->
    marketId symbol w1 = (Return pair, w2) ->
    let cancellation :=
      dispatched "cancelOrder" "private" "POST"
                 (VObj [("orderNumber", id); ("currencyPair", pair)]) in
    transport cancellation (sent cancellation w2) = (Return (VObj o), w3) ->
    cancelOrder id symbol params w
    = if result_accepted o
      then (Return (VObj o), w3)
      else (Throw (Raise ExchangeError ("gateio " ++ json (VObj o))), w3).
Proof.
  intros id symbol params pair o w w1 w2 w3 Hload Hpair cancellation Hreply.
  unfold cancelOrder, bind. rewrite Hload, Hpair.
  unfold privatePostCancelOrder, call.
  change (table_get "privatePostCancelOrder" api_table)
    with (Some ("cancelOrder", "private", "POST")).
  cbv iota. now apply request_object.
Qed.

(** *** [withdraw] *)

(** X16: [withdraw] checks the address before anything else: an address
    the check rejects fails the call with the error of the check and
    without a request or a change of state; after the check, a currency
    that is not a string fails it with a [TypeError], and otherwise one
    [withdraw] request goes out with the lower-cased currency, the amount
    and the address, and the result holds the response as [info] and an
    [undefined] id. *)
Theorem withdraw_checks_address_first :
  forall (currency amount address tag params : value) (w : exchange_state),
    (forall e, checkAddress address = Throw e ->
       withdraw currency amount address tag params w = (Throw e, w))
    /\ (forall w1,
          checkAddress address = Return tt ->
          loadMarkets w = (Return tt, w1) ->
          ((forall c, currency <> VStr c) ->
             withdraw currency amount address tag params w
             = (Throw (Raise TypeError "Cannot read properties"), w1))
          /\ (forall c response w2,
                currency = VStr c ->
                privatePostWithdraw
                  (extend (VObj [("currency", VStr (toLowerCase c));
                                 ("amount", amount);
                                 ("address", address)]) params) w1
                = (Return response, w2) ->
                withdraw currency amount address tag params w
                = (Return (VObj [("info", response); ("id", VUndefined)]), w2))).
Proof.
  intros currency amount address tag params w. split.
  - intros e He. unfold withdraw, bind, lift. now rewrite He.
  - intros w1 Hcheck Hload. split.
    + intros Hc. unfold withdraw, bind, lift. rewrite Hcheck, Hload.
      destruct currency; try reflexivity. exfalso. now apply (Hc s).
    + intros c response w2 -> Hcall. unfold withdraw, bind, lift.
      rewrite Hcheck, Hload. cbn [receiver]. rewrite Hcall. reflexivity.
Qed.

(** *** [fetchOpenOrders] *)

(** X17: the method of the class named [fetchOpenOrders] is the second
    of the two definitions: it posts [openOrders] without parameters and
    hands the [orders] of the response to [parseOrders] with the order
    normalizer, unfiltered.  The symbol is optional, but without one the
    normalizer is given no market and fails on every order. *)
Theorem fetchOpenOrders_effective :
  forall (symbol since limit params : value) (w w1 : exchange_state),
    loadMarkets w = (Return tt, w1) ->
    (forall response w2,
        symbol = VUndefined ->
        privatePostOpenOrders (VObj []) w1 = (Return response, w2) ->
        nullish response = false ->
        fetchOpenOrders symbol since limit params w
        = (parseOrders parseOrder (member response "orders") VUndefined since limit, w2)
        /\ forall order,
             parseOrder order VUndefined = Throw (Raise TypeError "Cannot read properties"))
    /\ (forall entry response w2 w3,
          defined symbol = true ->
          market symbol w1 = (Return entry, w2) ->
          privatePostOpenOrders (VObj []) w2 = (Return response, w3) ->
          nullish response = false ->
          fetchOpenOrders symbol since limit params w
          = (parseOrders parseOrder (member response "orders") entry since limit, w3)).
Proof.
  intros symbol since limit params w w1 Hload.
  change fetchOpenOrders with fetchOpenOrders_2. split.
  - intros response w2 -> Hcall Hresponse. split.
    + unfold fetchOpenOrders_2, bind. rewrite Hload. cbn [defined]. unfold ret.
      rewrite Hcall. unfold lift. rewrite (nullish_member _ Hresponse).
      now destruct (parseOrders _ _ _ _ _).
    + intros order. apply (proj1 (parseOrder_needs order VUndefined)).
      cbn [nullish]. apply Bool.orb_true_r.
  - intros entry response w2 w3 Hsymbol Hmarket Hcall Hresponse.
    unfold fetchOpenOrders_2, bind. rewrite Hload, Hsymbol, Hmarket, Hcall.
    unfold lift. rewrite (nullish_member _ Hresponse).
    now destruct (parseOrders _ _ _ _ _).
Qed.

(** *** Trades *)

(** X18: the trades of the account and the public trades go through the
    same normalizer: [fetchMyTrades], the second definition of the class,
    hands the [trades] of a [tradeHistory] post, and [fetchTrades] the
    [data] of a [tradeHistory/{id}] read, to [parseTrades] together with
    [parseTrade]; the normalizer for own trades is not used. *)
Theorem trades_share_normalizer :
  forall (symbol since limit params entry : value) (w w1 w2 : exchange_state),
    defined symbol = true ->
    loadMarkets w = (Return tt, w1) ->
    market symbol w1 = (Return entry, w2) ->
    nullish entry = false ->
    (forall response w3,
        privatePostTradeHistory (extend (VObj [("currencyPair", member entry "id")]) params) w2
        = (Return response, w3) ->
        nullish response = false ->
        fetchMyTrades symbol since limit params w
        = (parseTrades parseTrade (member response "trades") entry since limit, w3))
    /\ (forall response w3,
          publicGetTradeHistoryId (extend (VObj [("id", member entry "id")]) params) w2
          = (Return response, w3) ->
          nullish response = false ->
          fetchTrades symbol since limit params w
          = (parseTrades parseTrade (member response "data") entry since limit, w3)).
Proof.
  intros symbol since limit params entry w w1 w2 Hsymbol Hload Hmarket Hentry. split.
  - intros response w3 Hcall Hresponse.
    apply fetchMyTrades_with_symbol with (entry_id := member entry "id") (response := response)
                                         (w1 := w1) (w2 := w2); try assumption;
      now apply nullish_member.
  - intros response w3 Hcall Hresponse.
    unfold fetchTrades, bind. rewrite Hload, Hmarket. unfold lift at 1.
    rewrite (nullish_member _ Hentry), Hcall. unfold lift.
    rewrite (nullish_member _ Hresponse). now destruct (parseTrades _ _ _ _ _).
Qed.

(** *** Deposit addresses *)

(** X19: [createDepositAddress] posts to [newAddress] and
    [fetchDepositAddress] to [depositAddress], each with the id of the
    currency under [currency] and the caller's parameters laid over it; a
    response that [request] rejects fails either call with the
    [ExchangeError] of [request], before the address is looked at. *)
Theorem deposit_address_endpoints :
  forall (code params entry : value) (w w1 w2 : exchange_state),
    loadMarkets w = (Return tt, w1) ->
    currency code w1 = (Return entry, w2) ->
    nullish entry = false ->
    let body := extend (VObj [("currency", member entry "id")]) params in
    (forall o w3,
        transport (dispatched "newAddress" "private" "POST" body)
                  (sent (dispatched "newAddress" "private" "POST" body) w2)
        = (Return (VObj o), w3) ->
        result_accepted o = false ->
        createDepositAddress code params w
        = (Throw (Raise ExchangeError ("gateio " ++ json (VObj o))), w3))
    /\ (forall o w3,
          transport (dispatched "depositAddress" "private" "POST" body)
                    (sent (dispatched "depositAddress" "private" "POST" body) w2)
          = (Return (VObj o), w3) ->
          result_accepted o = false ->
          fetchDepositAddress code params w
          = (Throw (Raise ExchangeError ("gateio " ++ json (VObj o))), w3)).
Proof.
  intros code params entry w w1 w2 Hload Hcurrency Hentry body. split.
  - intros o w3 Hreply Hrejected.
    unfold createDepositAddress, queryDepositAddress, bind. rewrite Hload, Hcurrency.
    unfold lift at 1. rewrite (nullish_member _ Hentry). fold body. unfold call.
    change (table_get ("privatePost" ++ "New" ++ "Address") api_table)
      with (Some ("newAddress", "private", "POST")).
    cbv iota. rewrite (request_object _ _ _ _ _ _ _ _ _ Hreply), Hrejected. reflexivity.
  - intros o w3 Hreply Hrejected.
    unfold fetchDepositAddress, queryDepositAddress, bind. rewrite Hload, Hcurrency.
    unfold lift at 1. rewrite (nullish_member _ Hentry). fold body. unfold call.
    change (table_get ("privatePost" ++ "Deposit" ++ "Address") api_table)
      with (Some ("depositAddress", "private", "POST")).
    cbv iota. rewrite (request_object _ _ _ _ _ _ _ _ _ Hreply), Hrejected. reflexivity.
Qed.

(** *** [fetchOrderBook] *)

(** X20: [fetchOrderBook] reads [orderBook/{id}] for the pair id of the
    symbol, with the caller's parameters laid over the id, and returns what
    [parseOrderBook] makes of the response object when [request] accepts
    it; the [limit] it is given plays no part. *)
Theorem fetchOrderBook_result :
  forall (symbol limit params pair : value) (o : dict) (w w1 w2 w3 : exchange_state),
    loadMarkets w = (Return tt, w1) ->
    marketId symbol w1 = (Return pair, w2) ->
    let reading :=
      dispatched "orderBook/{id}" "public" "GET" (extend (VObj [("id", pair)]) params) in
    transport reading (sent reading w2) = (Return (VObj o), w3) ->
    fetchOrderBook symbol limit params w
    = if result_accepted o
      then (parseOrderBook (VObj o), w3)
      else (Throw (Raise ExchangeError ("gateio " ++ json (VObj o))), w3).
Proof.
  intros symbol limit params pair o w w1 w2 w3 Hload Hpair reading Hreply.
  unfold fetchOrderBook, bind. rewrite Hload, Hpair.
  unfold publicGetOrderBookId, call.
  change (table_get "publicGetOrderBookId" api_table)
    with (Some ("orderBook/{id}", "public", "GET")).
  cbv iota. rewrite (request_object _ _ _ _ _ _ _ _ _ Hreply).
  destruct (result_accepted o); [|reflexivity].
  unfold lift. now destruct (parseOrderBook (VObj o)).
Qed.

End MethodProperties.

(** ** Worked examples *)

Section Examples.
Import Sample.


(** The two stamps of the example, 28,800,000 ms apart. *)
Example trade_stamps_apart :
  (let* trade := parseTrade (self := offline) public_trade btc_usdt in
   let* mytrade := parseMyTrade (self := offline) private_trade btc_usdt in
   Return (member trade "timestamp", member mytrade "timestamp",
           js_sub (member mytrade "timestamp") (member trade "timestamp")))
  = Return (VNum 1499971200000, VNum 1500000000000, VNum 28800000).
Proof. vm_compute. reflexivity. Qed.

(** Called with a symbol, [fetchMyTrades] does dispatch a request. *)
Example fetchMyTrades_dispatches :
  wire (snd (fetchMyTrades (self := exchange trades_reply)
               (VStr "BTC/USDT") VUndefined VUndefined (VObj []) idle))
  = [{| rq_path := "tradeHistory"; rq_api := "private"; rq_method := "POST";
        rq_params := VObj [("currencyPair", VStr "btc_usdt")] |}].
Proof. vm_compute. reflexivity. Qed.

Lemma handleErrors_classifies_witness :
  handleErrors ignored ignored ignored ignored ignored
    (text "{'result':'false','code':'21','message':'x'}")
  = Throw (Raise InsufficientFunds "You don't have enough fund")
  /\ handleErrors ignored ignored ignored ignored ignored (text "{'result':'true'}")
     = Return tt
  /\ handleErrors ignored ignored ignored ignored ignored "" = Return tt
  /\ handleErrors ignored ignored ignored ignored ignored "<html>" = Return tt
  /\ handleErrors ignored ignored ignored ignored ignored
       (text "{'result':'false','code':'toString'}")
     = Throw (Raise TypeError "exceptions[errorCode] is not a constructor").
Proof.
  split; [|split; [|split; [|split]]].
  - destruct (handleErrors_classifies ignored ignored ignored ignored ignored
                (text "{'result':'false','code':'21','message':'x'}")) as (_ & _ & H).
    destruct (H _ _ eq_refl eq_refl) as (_ & _ & _ & _ & H').
    destruct (H' eq_refl) as (_ & H21 & _).
    exact (proj1 (H21 eq_refl)).
  - destruct (handleErrors_classifies ignored ignored ignored ignored ignored
                (text "{'result':'true'}")) as (_ & _ & H).
    destruct (H _ _ eq_refl eq_refl) as (_ & Hpass & _).
    apply Hpass. vm_compute. discriminate.
  - exact (proj1 (handleErrors_classifies ignored ignored ignored ignored ignored "") eq_refl).
  - destruct (handleErrors_classifies ignored ignored ignored ignored ignored "<html>")
      as (_ & H & _).
    apply (H _ _ eq_refl). discriminate.
  - destruct (handleErrors_classifies ignored ignored ignored ignored ignored
                (text "{'result':'false','code':'toString'}")) as (_ & _ & H).
    destruct (H _ _ eq_refl eq_refl) as (_ & _ & _ & _ & H').
    destruct (H' eq_refl) as (_ & _ & _ & _ & Hinherited & _).
    exact (Hinherited eq_refl).
Defined.

(** The classifier on a code that names the constructor every object
    inherits: what is thrown is no error. *)
Example handleErrors_on_constructor :
  handleErrors ignored ignored ignored ignored ignored
    (text "{'result':'false','code':'constructor','message':'x'}")
  = Throw (Raise ThrownValue "function Object() { [native code] }").
Proof. vm_compute. reflexivity. Qed.


(** The symbols and the smallest costs of the example catalog. *)
Example catalog_symbols :
  match fst (fetchMarkets (self := exchange catalog_reply) idle) with
  | Return (VArr ms) =>
      map (fun m => (member m "symbol", member (member (member m "limits") "cost") "min")) ms
  | _ => []
  end
  = [(VStr "BTC/USDT", VNum 1); (VStr "BTC/ETH", VNum 0.001);
     (VStr "LTC/XRP", VNum (0.5 * 0.001))].
Proof. vm_compute. reflexivity. Qed.


(** A pair list with a malformed record fails with a [TypeError]. *)
Example fetchMarkets_malformed_pair :
  fst (fetchMarkets (self := exchange (json_reply "{'result':'true','pairs':[null]}")) idle)
  = Throw (Raise TypeError "Cannot convert undefined or null to object").
Proof. vm_compute. reflexivity. Qed.


Lemma parseTicker_derived_witness :
  exists t,
    parseTicker (self := offline) rising_ticker VUndefined idle = (Return t, idle)
    /\ member t "open" = VNum (100 / (1 + 10 / 100))
    /\ member t "change" = VNum (100 - 100 / (1 + 10 / 100))
    /\ member t "average" = VNum ((100 + 100 / (1 + 10 / 100)) / 2).
Proof.
  destruct (parseTicker_derived (self := offline) rising_ticker VUndefined idle)
    as (t & Hrun & _ & _ & _ & _ & _ & Hderived & _).
  exists t. split; [exact Hrun|]. exact (Hderived 100%float 10%float eq_refl eq_refl).
Defined.

(** The spec's ticker example to three decimals, and a ticker without
    [percentChange]. *)
Example ticker_rounding :
  let close (x y : float) := PrimFloat.ltb (PrimFloat.abs (x - y)) 0.0005 in
  close (100 / (1 + 10 / 100))%float 90.909%float
  && close (100 - 100 / (1 + 10 / 100))%float 9.091%float
  && close ((100 + 100 / (1 + 10 / 100)) / 2)%float 95.455%float = true.
Proof. vm_compute. reflexivity. Qed.

Example ticker_without_percentChange :
  let t := match fst (parseTicker (self := offline) (VObj [("last", VStr "100")]) VUndefined idle) with
           | Return t => t
           | Throw _ => VUndefined
           end in
  (member t "open", member t "change", member t "average", member t "last", member t "close")
  = (VUndefined, VUndefined, VUndefined, VNum 100, VNum 100).
Proof. vm_compute. reflexivity. Qed.

Lemma parseOrder_derived_witness :
  exists r,
    parseOrder (self := offline) queried_order btc_usdt = Return r
    /\ member r "amount" = VNum 3
    /\ member r "remaining" = js_sub (member r "amount") (member r "filled")
    /\ member r "fee"
       = VObj [("currency", VStr "BTC");
               ("value", js_div (js_mul (VNum 3) (VNum 0.2)) (VNum 100))].
Proof.
  destruct (parseOrder_derived (self := offline) queried_order btc_usdt _ _ eq_refl eq_refl)
    as (r & Hrun & Hremaining & _ & Hamount & _ & _ & _ & Hfee & _).
  exists r. split; [exact Hrun|].
  assert (Ha : member r "amount" = VNum 3).
  { rewrite Hamount; [reflexivity|]. right. exists 0%float. split; reflexivity. }
  split; [exact Ha|]. split; [exact Hremaining|].
  rewrite <- Ha. apply Hfee.
  intros [Habsent|(x & Hx & Hzero)]; [discriminate|].
  injection Hx as <-. discriminate.
Defined.

(** C6 as stated fails: a [feePercentage] that is present and zero yields
    no fee at all, not a fee of zero. *)
Lemma parseOrder_zero_feePercentage :
  numeric zero_fee_order "feePercentage" = true
  /\ exists r,
       parseOrder (self := offline) zero_fee_order btc_usdt = Return r
       /\ member r "fee" = VUndefined
       /\ member r "fee"
          <> VObj [("currency", VStr "BTC");
                   ("value", js_div (js_mul (member r "amount") (VNum 0)) (VNum 100))].
Proof.
  split; [reflexivity|].
  eexists. split; [vm_compute; reflexivity|].
  split; [reflexivity|]. discriminate.
Qed.

Lemma queryDepositAddress_result_witness :
  (exists r,
      fetchDepositAddress (self := exchange (json_reply "{'result':'true','addr':'rAddr123/456'}"))
        (VStr "XRP") (VObj []) idle
      = (Return r, sent xrp_address idle)
      /\ member r "address" = VStr "rAddr123"
      /\ member r "tag" = VStr "456"
      /\ member r "status" = VStr "ok")
  /\ fetchDepositAddress (self := exchange (json_reply "{'result':'true','addr':'1xrpaddresserror'}"))
       (VStr "XRP") (VObj []) idle
     = (Throw (Raise InvalidAddress "gateio queryDepositAddress 1xrpaddresserror"),
        sent xrp_address idle).
Proof.
  split.
  - destruct (queryDepositAddress_result
                (self := exchange (json_reply "{'result':'true','addr':'rAddr123/456'}"))
                "Deposit" (VStr "XRP") (VObj []) idle idle idle (sent xrp_address idle)
                (VObj [("id", VStr "xrp"); ("code", VStr "XRP")]) (VStr "xrp")
                (VObj [("result", VStr "true"); ("addr", VStr "rAddr123/456")])
                eq_refl eq_refl eq_refl eq_refl) as (_ & Hxrp & _).
    destruct (Hxrp "rAddr123/456" eq_refl eq_refl eq_refl)
      as (r & Hrun & _ & _ & Hstatus & Hparts).
    exists r. split; [exact Hrun|].
    destruct (Hparts "rAddr123" "456" eq_refl eq_refl eq_refl) as (Haddress & Htag).
    split; [exact Haddress|]. split; [exact Htag|exact Hstatus].
  - destruct (queryDepositAddress_result
                (self := exchange (json_reply "{'result':'true','addr':'1xrpaddresserror'}"))
                "Deposit" (VStr "XRP") (VObj []) idle idle idle (sent xrp_address idle)
                (VObj [("id", VStr "xrp"); ("code", VStr "XRP")]) (VStr "xrp")
                (VObj [("result", VStr "true"); ("addr", VStr "1xrpaddresserror")])
                eq_refl eq_refl eq_refl eq_refl) as (Hbad & _).
    exact (proj1 (Hbad "1xrpaddresserror" eq_refl eq_refl)).
Defined.

(** A response without an address: status "none" for a currency without a
    tag. *)
Example deposit_address_missing :
  match fst (fetchDepositAddress (self := exchange (json_reply "{'result':'true'}"))
               (VStr "BTC") (VObj []) idle) with
  | Return r => (member r "address", member r "status")
  | Throw _ => (VNull, VNull)
  end
  = (VUndefined, VStr "none").
Proof. vm_compute. reflexivity. Qed.

(** For the code "XRP" the address is split before its presence is
    looked at: without an address the lookup stops with a [TypeError] and
    builds no result. *)
Example deposit_address_missing_xrp :
  fst (fetchDepositAddress (self := exchange (json_reply "{'result':'true'}"))
         (VStr "XRP") (VObj []) idle)
  = Throw (Raise TypeError "Cannot read properties").
Proof. vm_compute. reflexivity. Qed.

Lemma sign_request_witness :
  (exists message,
      sign (self := offline) "balances" "private" (VStr "POST") (VObj []) VUndefined VUndefined
           unconfigured
      = (Throw (Raise AuthenticationError message), unconfigured))
  /\ (exists r,
        sign (self := offline) "tradeHistory" "private" (VStr "POST")
             (VObj [("currencyPair", VStr "btc_usdt")]) VUndefined VUndefined idle
        = (Return r, idle)
        /\ member r "body" = VStr "nonce=1500000000000&currencyPair=btc_usdt"
        /\ member (member r "headers") "Key" = VStr "key"
        /\ member (member r "headers") "Sign"
           = VStr "sha512(secret,nonce=1500000000000&currencyPair=btc_usdt)")
  /\ (exists r,
        sign (self := offline) "tradeHistory/{id}" "public" (VStr "GET")
             (VObj [("id", VStr "btc_usdt"); ("limit", VNum 5)]) VUndefined VUndefined idle
        = (Return r, idle)
        /\ member r "url" = VStr "https://data.gate.io/api2/1/tradeHistory/btc_usdt?limit=5"
        /\ member r "body" = VUndefined
        /\ member r "headers" = VUndefined).
Proof.
  split; [|split].
  - destruct (sign_request (self := offline) "balances" (VStr "POST") (VObj [])
                VUndefined VUndefined unconfigured) as (Hmissing & _).
    destruct (Hmissing (or_introl eq_refl)) as (message & Hrun & _).
    exists message. exact Hrun.
  - destruct (sign_request (self := offline) "tradeHistory" (VStr "POST")
                (VObj [("currencyPair", VStr "btc_usdt")]) VUndefined VUndefined idle)
      as (_ & Hprivate & _).
    destruct (Hprivate eq_refl eq_refl) as (r & Hrun & _ & _ & Hbody & Hkey & Hsign & _).
    exists r. split; [exact Hrun|]. split; [exact Hbody|]. split; [exact Hkey|exact Hsign].
  - destruct (sign_request (self := offline) "tradeHistory/{id}" (VStr "GET")
                (VObj [("id", VStr "btc_usdt"); ("limit", VNum 5)]) VUndefined VUndefined idle)
      as (_ & _ & r & Hrun & Hurl & _ & Hbody & Hheaders).
    exists r. split; [exact Hrun|]. split; [exact Hurl|]. split; [exact Hbody|exact Hheaders].
Defined.



(** *** Further properties *)

Lemma request_verdict_witness :
  (exists response,
      request (self := exchange balances_reply) "balances" "private" "POST" (VObj [])
              ignored ignored idle
      = (Return response, sent balances idle)
      /\ member response "result" = VStr "true")
  /\ request (self := exchange rejected_reply) "balances" "private" "POST" (VObj [])
             ignored ignored idle
     = (Throw (Raise ExchangeError "gateio [object Object]"), sent balances idle).
Proof.
  split.
  - eexists. split.
    + exact (proj1 (request_verdict (self := exchange balances_reply)
                      "balances" "private" "POST" (VObj []) ignored ignored _ idle _ eq_refl)
                   _ eq_refl).
    + reflexivity.
  - exact (proj1 (request_verdict (self := exchange rejected_reply)
                    "balances" "private" "POST" (VObj []) ignored ignored _ idle _ eq_refl)
                 _ eq_refl).
Defined.

Lemma handleErrors_raises_witness :
  (exists parsed ec,
      JSON_parse (text "{'result':'false','code':'17','message':'x'}") = Some parsed
      /\ safeString parsed "code" VUndefined = VStr ec
      /\ table_get ec exceptions = Some OrderNotFound
      /\ table_get ec errorCodeNames = Some "Invalid orderid")
  /\ (exists parsed ec i,
        JSON_parse (text "{'result':'false','code':'valueOf'}") = Some parsed
        /\ safeString parsed "code" VUndefined = VStr ec
        /\ table_get ec exceptions = None
        /\ table_get ec Object_prototype = Some i).
Proof.
  split.
  - assert (Hrun : handleErrors ignored ignored ignored ignored ignored
                     (text "{'result':'false','code':'17','message':'x'}")
                   = Throw (Raise OrderNotFound "Invalid orderid"))
      by (vm_compute; reflexivity).
    destruct (handleErrors_raises _ _ _ _ _ _ _ _ Hrun)
      as [(Hclass & _)
         |(parsed & ec & Hparse & _ & Hcode
           & [(Hclass & Hname & _)|(_ & i & _ & [(_ & Hclass)|(_ & _ & Hclass)])])];
      try discriminate Hclass.
    exists parsed, ec. split; [exact Hparse|]. split; [exact Hcode|].
    split; [exact Hclass|exact Hname].
  - assert (Hrun : handleErrors ignored ignored ignored ignored ignored
                     (text "{'result':'false','code':'valueOf'}")
                   = Throw (Raise TypeError "exceptions[errorCode] is not a constructor"))
      by (vm_compute; reflexivity).
    destruct (handleErrors_raises _ _ _ _ _ _ _ _ Hrun)
      as [(Hclass & _)
         |(parsed & ec & Hparse & _ & Hcode
           & [(Hclass & _)|(Hnone & i & Hinherited & _)])].
    + discriminate Hclass.
    + exfalso. destruct (exceptions_named _ _ Hclass) as (Hin & _).
      cbn [In] in Hin. intuition discriminate.
    + exists parsed, ec, i. split; [exact Hparse|]. split; [exact Hcode|].
      split; [exact Hnone|exact Hinherited].
Defined.

Ltac run := vm_compute; reflexivity.



Lemma parseOrder_not_a_number_witness :
  exists r,
    parseOrder (self := offline) bare_order btc_usdt = Return r
    /\ member r "timestamp" = VNum nan
    /\ member r "filled" = VUndefined
    /\ member r "remaining" = VNum nan.
Proof.
  destruct (parseOrder_not_a_number (self := offline) bare_order btc_usdt eq_refl eq_refl)
    as (r & Hrun & Hstamp & Hfilled & _).
  exists r. split; [exact Hrun|]. split.
  - apply Hstamp. run.
  - apply Hfilled. run.
Defined.

Lemma sign_parameters_witness :
  exists r,
    sign (self := offline) "tradeHistory/{id}" "private" (VStr "POST")
         (VObj [("id", VStr "btc_usdt"); ("nonce", VNum 1); ("limit", VNum 5)])
         VUndefined VUndefined idle
    = (Return r, idle)
    /\ member r "body" = VStr "nonce=1&limit=5".
Proof.
  assert (Hdistinct : NoDup (map fst (own_props (VObj [("id", VStr "btc_usdt");
                                                         ("nonce", VNum 1);
                                                         ("limit", VNum 5)]))))
    by (repeat constructor; cbn; intuition discriminate).
  destruct (sign_parameters (self := offline) "tradeHistory/{id}" (VStr "POST")
              (VObj [("id", VStr "btc_usdt"); ("nonce", VNum 1); ("limit", VNum 5)])
              VUndefined VUndefined idle eq_refl eq_refl Hdistinct)
    as (r & r' & Hrun & Hbody & _).
  exists r. split; [exact Hrun|exact Hbody].
Defined.


Lemma fetchTickers_files_witness :
  (exists result t,
      fetchTickers (self := exchange tickers_reply) VUndefined (VObj []) idle
      = (Return (VObj result), sent tickers idle)
      /\ lookup "BTC/ETH" result = Some t
      /\ parseTicker (self := exchange tickers_reply) (VObj [("last", VStr "2")]) VUndefined
                     (sent tickers idle)
         = (Return t, sent tickers idle))
  /\ fetchTickers (self := exchange broken_tickers_reply) VUndefined (VObj []) idle
     = (Throw (Raise TypeError "Cannot read properties"), sent tickers idle).
Proof.
  split.
  - destruct (fetchTickers_files (self := exchange tickers_reply) VUndefined (VObj [])
                idle idle (sent tickers idle) (own_props (answer tickers_reply tickers))
                (own_props (markets idle)) [] eq_refl ltac:(run) eq_refl eq_refl)
      as (_ & Hgood).
    destruct (Hgood ltac:(run)) as (result & Hrun & _ & Hfiled).
    assert (Hdistinct : NoDup (map (ticker_symbol (self := exchange tickers_reply))
                                   (map fst (own_props (answer tickers_reply tickers))))).
    { vm_compute. repeat constructor; cbn; intuition discriminate. }
    destruct (Hfiled Hdistinct "xbt_eth" ltac:(vm_compute; tauto)) as (t & Ht & Hparsed).
    exists result, t. split; [exact Hrun|]. split; [exact Ht|exact Hparsed].
  - exact (proj1 (fetchTickers_files (self := exchange broken_tickers_reply) VUndefined
                    (VObj []) idle idle (sent tickers idle)
                    (own_props (answer broken_tickers_reply tickers))
                    (own_props (markets idle)) [] eq_refl ltac:(run) eq_refl eq_refl)
                 ltac:(run)).
Defined.

Lemma createOrder_places_limit_order_witness :
  createOrder (self := offline) (VStr "BTC/USDT") (VStr "market") "buy" (VNum 2) VUndefined
              (VObj []) idle
  = (Throw (Raise ExchangeError "gateio allows limit orders only"), idle)
  /\ createOrder (self := exchange placed_reply) (VStr "BTC/USDT") (VStr "limit") "hold"
                 (VNum 2) (VNum 2500) (VObj []) idle
     = (Throw (Raise TypeError "this[method] is not a function"), idle)
  /\ (exists r,
        createOrder (self := exchange placed_reply) (VStr "BTC/USDT") (VStr "limit") "buy"
                    (VNum 2) (VNum 2500) (VObj []) idle
        = (Return r, sent buy idle)
        /\ member r "status" = VStr "open"
        /\ member r "side" = VStr "buy"
        /\ member r "id" = VNum 9
        /\ member r "amount" = VNum 2
        /\ member r "price" = VUndefined).
Proof.
  split; [|split].
  - exact (proj1 (createOrder_places_limit_order (self := offline) (more := trading)
                    (VStr "BTC/USDT")
                    (VStr "market") "buy" (VNum 2) VUndefined (VObj []) idle) eq_refl).
  - exact (proj1 (proj2 (createOrder_places_limit_order (self := exchange placed_reply)
            (more := trading)
                           (VStr "BTC/USDT") (VStr "limit") "hold" (VNum 2) (VNum 2500)
                           (VObj []) idle)
                        idle idle btc_usdt eq_refl eq_refl eq_refl eq_refl) eq_refl).
  - destruct (proj2 (proj2 (createOrder_places_limit_order (self := exchange placed_reply)
            (more := trading)
                              (VStr "BTC/USDT") (VStr "limit") "buy" (VNum 2) (VNum 2500)
                              (VObj []) idle)
                           idle idle btc_usdt eq_refl eq_refl eq_refl eq_refl)
                    (sent buy idle) (answer placed_reply buy) ltac:(run)
                    ltac:(vm_compute; repeat constructor; cbn; intuition discriminate))
      as (r & Hrun & _ & _ & Hstatus & Hside & Hid & Hamount & Hprice).
    exists r. split; [exact Hrun|]. split; [exact Hstatus|]. split; [exact Hside|].
    split; [exact Hid|]. split.
    + exact (Hamount _ eq_refl eq_refl eq_refl eq_refl).
    + exact (Hprice eq_refl eq_refl).
Defined.

Lemma fetchOrder_result_witness :
  (exists r,
      fetchOrder (self := exchange order_reply) (VNum 7) (VStr "BTC/USDT") (VObj []) idle
      = (Return r, sent get_order idle)
      /\ member r "symbol" = VStr "BTC/USDT")
  /\ fetchOrder (self := exchange no_order_reply) (VNum 7) (VStr "BTC/USDT") (VObj []) idle
     = (Throw (Raise TypeError "Cannot read properties"), sent get_order idle).
Proof.
  split.
  - destruct (proj2 (fetchOrder_result (self := exchange order_reply) (VNum 7)
                       (VStr "BTC/USDT") (VObj []) btc_usdt (answer order_reply get_order)
                       idle idle idle (sent get_order idle)
                       eq_refl eq_refl eq_refl ltac:(run)) ltac:(run))
      as (r & Hrun & _ & _ & Hsymbol).
    exists r. split; [exact Hrun|exact Hsymbol].
  - exact (proj1 (fetchOrder_result (self := exchange no_order_reply) (VNum 7)
                    (VStr "BTC/USDT") (VObj []) btc_usdt (answer no_order_reply get_order)
                    idle idle idle (sent get_order idle)
                    eq_refl eq_refl eq_refl ltac:(run)) ltac:(run)).
Defined.

Lemma fetchTicker_result_witness :
  exists t,
    fetchTicker (self := exchange ticker_reply) (VStr "BTC/USDT") (VObj []) idle
    = (Return t, sent ticker_btc_usdt idle)
    /\ member t "last" = VNum 100.
Proof.
  destruct (fetchTicker_result (self := exchange ticker_reply) (VStr "BTC/USDT") (VObj [])
              btc_usdt (answer ticker_reply ticker_btc_usdt) idle idle idle
              (sent ticker_btc_usdt idle) eq_refl eq_refl eq_refl ltac:(run))
    as (t & Hrun & _ & _ & Hlast).
  exists t. split; [exact Hrun|]. rewrite Hlast. run.
Defined.

Lemma cancelOrder_result_witness :
  cancelOrder (self := exchange no_order_reply) (VNum 7) (VStr "BTC/USDT")
              (VObj [("reason", VStr "x")]) idle
  = (Return (answer no_order_reply cancel), sent cancel idle)
  /\ cancelOrder (self := exchange rejected_reply) (VNum 7) (VStr "BTC/USDT") (VObj []) idle
     = (Throw (Raise ExchangeError "gateio [object Object]"), sent cancel idle).
Proof.
  split.
  - exact (cancelOrder_result (self := exchange no_order_reply)
            (more := trading) (VNum 7) (VStr "BTC/USDT")
             (VObj [("reason", VStr "x")]) (VStr "btc_usdt")
             (own_props (answer no_order_reply cancel)) idle idle idle (sent cancel idle)
             eq_refl eq_refl ltac:(run)).
  - exact (cancelOrder_result (self := exchange rejected_reply)
            (more := trading) (VNum 7) (VStr "BTC/USDT")
             (VObj []) (VStr "btc_usdt")
             (own_props (answer rejected_reply cancel)) idle idle idle (sent cancel idle)
             eq_refl eq_refl ltac:(run)).
Defined.

Lemma withdraw_checks_address_first_witness :
  withdraw (self := exchange no_order_reply) (VStr "BTC") (VNum 1) (VStr "") VUndefined
           (VObj []) idle
  = (Throw (Raise InvalidAddress "gateio address is invalid"), idle)
  /\ withdraw (self := exchange no_order_reply) (VStr "BTC") (VNum 1) (VStr "1BitcoinAddress")
              VUndefined (VObj []) idle
     = (Return (VObj [("info", answer no_order_reply withdrawal); ("id", VUndefined)]),
        sent withdrawal idle).
Proof.
  split.
  - exact (proj1 (withdraw_checks_address_first (self := exchange no_order_reply) (more := trading)
                    (VStr "BTC") (VNum 1) (VStr "") VUndefined (VObj []) idle) _ eq_refl).
  - exact (proj2 (proj2 (withdraw_checks_address_first (self := exchange no_order_reply)
            (more := trading)
                           (VStr "BTC") (VNum 1) (VStr "1BitcoinAddress") VUndefined
                           (VObj []) idle)
                        idle eq_refl eq_refl)
                 "BTC" (answer no_order_reply withdrawal) (sent withdrawal idle)
                 eq_refl ltac:(run)).
Defined.

Lemma fetchOpenOrders_effective_witness :
  fetchOpenOrders (self := exchange open_orders_reply) VUndefined VUndefined VUndefined
                  (VObj []) idle
  = (Throw (Raise TypeError "Cannot read properties"), sent open_orders idle)
  /\ (exists order,
        fetchOpenOrders (self := exchange open_orders_reply) (VStr "BTC/USDT") VUndefined
                        VUndefined (VObj []) idle
        = (Return (VArr [order]), sent open_orders idle)).
Proof.
  split.
  - exact (proj1 (proj1 (fetchOpenOrders_effective (self := exchange open_orders_reply)
            (more := trading)
                           VUndefined VUndefined VUndefined (VObj []) idle idle eq_refl)
                        (answer open_orders_reply open_orders) (sent open_orders idle)
                        eq_refl ltac:(run) ltac:(run))).
  - eexists.
    exact (proj2 (fetchOpenOrders_effective (self := exchange open_orders_reply) (more := trading)
                    (VStr "BTC/USDT") VUndefined VUndefined (VObj []) idle idle eq_refl)
                 btc_usdt (answer open_orders_reply open_orders) idle (sent open_orders idle)
                 eq_refl eq_refl ltac:(run) ltac:(run)).
Defined.

Lemma trades_share_normalizer_witness :
  fetchMyTrades (self := exchange trades_reply) (VStr "BTC/USDT") VUndefined VUndefined
                (VObj []) idle
  = (parseTrades (Exchange := exchange trades_reply) (parseTrade (self := exchange trades_reply))
                 (member (answer trades_reply trade_history) "trades") btc_usdt
                 VUndefined VUndefined,
     sent trade_history idle)
  /\ fetchTrades (self := exchange public_trades_reply) (VStr "BTC/USDT") VUndefined VUndefined
                 (VObj []) idle
     = (parseTrades (Exchange := exchange public_trades_reply)
                    (parseTrade (self := exchange public_trades_reply))
                    (member (answer public_trades_reply public_trade_history) "data") btc_usdt
                    VUndefined VUndefined,
        sent public_trade_history idle).
Proof.
  split.
  - exact (proj1 (trades_share_normalizer (self := exchange trades_reply) (VStr "BTC/USDT")
                    VUndefined VUndefined (VObj []) btc_usdt idle idle idle
                    eq_refl eq_refl eq_refl eq_refl)
                 (answer trades_reply trade_history) (sent trade_history idle)
                 ltac:(run) ltac:(run)).
  - exact (proj2 (trades_share_normalizer (self := exchange public_trades_reply)
                    (VStr "BTC/USDT") VUndefined VUndefined (VObj []) btc_usdt idle idle idle
                    eq_refl eq_refl eq_refl eq_refl)
                 (answer public_trades_reply public_trade_history)
                 (sent public_trade_history idle) ltac:(run) ltac:(run)).
Defined.

Lemma deposit_address_endpoints_witness :
  createDepositAddress (self := exchange rejected_reply) (VStr "BTC") (VObj []) idle
  = (Throw (Raise ExchangeError "gateio [object Object]"), sent new_address idle)
  /\ fetchDepositAddress (self := exchange rejected_reply) (VStr "BTC") (VObj []) idle
     = (Throw (Raise ExchangeError "gateio [object Object]"), sent deposit_address idle).
Proof.
  destruct (deposit_address_endpoints (self := exchange rejected_reply) (VStr "BTC") (VObj [])
              (VObj [("id", VStr "btc"); ("code", VStr "BTC")]) idle idle idle
              eq_refl eq_refl eq_refl) as (Hnew & Hdeposit).
  split.
  - exact (Hnew (own_props (answer rejected_reply new_address)) (sent new_address idle)
             ltac:(run) ltac:(run)).
  - exact (Hdeposit (own_props (answer rejected_reply deposit_address))
             (sent deposit_address idle) ltac:(run) ltac:(run)).
Defined.

Lemma parseOrder_needs_order_and_market_witness :
  parseOrder (self := offline) queried_order VUndefined
  = Throw (Raise TypeError "Cannot read properties")
  /\ (exists r,
        parseOrder (self := offline) queried_order btc_usdt = Return r
        /\ member r "type" = VStr "limit"
        /\ member r "side" = VStr "sell"
        /\ member r "symbol" = VStr "BTC/USDT").
Proof.
  split.
  - exact (proj1 (parseOrder_needs_order_and_market (self := offline) queried_order VUndefined)
                 eq_refl).
  - destruct (proj2 (parseOrder_needs_order_and_market (self := offline) queried_order btc_usdt)
                    eq_refl)
      as (r & Hrun & _ & _ & _ & Hside & Hsymbol & Htype & _).
    exists r. split; [exact Hrun|]. split; [exact Htype|]. split; [exact Hside|exact Hsymbol].
Defined.


Lemma fetchOrderBook_result_witness :
  fetchOrderBook (self := exchange book_reply) (VStr "BTC/USDT") (VNum 5) (VObj []) idle
  = (Return (answer book_reply order_book), sent order_book idle).
Proof.
  exact (fetchOrderBook_result (self := exchange book_reply) (more := trading)
           (VStr "BTC/USDT") (VNum 5) (VObj []) (VStr "btc_usdt")
           (own_props (answer book_reply order_book)) idle idle idle (sent order_book idle)
           eq_refl eq_refl ltac:(run)).
Defined.

Lemma fetchMyTrades_stamps_witness :
  fetchMyTrades (self := exchange own_trades_reply) (VStr "BTC/USDT") VUndefined VUndefined
                (VObj []) idle
  = (parseTrades (Exchange := exchange own_trades_reply)
                 (parseTrade (self := exchange own_trades_reply))
                 (VArr [own_trade]) btc_usdt VUndefined VUndefined,
     sent trade_history idle)
  /\ (exists trade,
        parseTrade (self := exchange own_trades_reply) own_trade btc_usdt = Return trade
        /\ member trade "timestamp" = VNum (1500000000000 - 28800000)).
Proof.
  destruct (fetchMyTrades_stamps (self := exchange own_trades_reply) (VStr "BTC/USDT")
              VUndefined VUndefined (VObj []) btc_usdt
              (VObj [("result", VStr "true"); ("trades", VArr [own_trade])])
              idle idle idle (sent trade_history idle)
              eq_refl eq_refl eq_refl eq_refl ltac:(run) eq_refl)
    as (Hrun & Hstamp).
  split; [exact Hrun|].
  exact (proj1 (Hstamp (own_props own_trade) "2017-07-14 02:40:00" 1500000000000%float
                       eq_refl ltac:(run))).
Defined.

(** The stamp of that trade as [fetchMyTrades] returns it, beside its
    [time_unix] times 1000. *)
Example fetchMyTrades_own_trade_stamp :
  match fst (fetchMyTrades (self := exchange own_trades_reply) (VStr "BTC/USDT")
               VUndefined VUndefined (VObj []) idle) with
  | Return (VArr trades) =>
      map (fun trade => (member trade "timestamp",
                         js_mul (member (member trade "info") "time_unix") (VNum 1000)))
          trades
  | _ => []
  end
  = [(VNum 1499971200000, VNum 1500000000000)].
Proof. vm_compute. reflexivity. Qed.

Lemma queryDepositAddress_without_address_witness :
  fetchDepositAddress (self := exchange (json_reply "{'result':'true'}"))
    (VStr "XRP") (VObj []) idle
  = (Throw (Raise TypeError "Cannot read properties"), sent xrp_address idle)
  /\ (exists r,
        fetchDepositAddress (self := exchange (json_reply "{'result':'true'}"))
          (VStr "BTC") (VObj []) idle
        = (Return r, sent deposit_address idle)
        /\ member r "status" = VStr "none").
Proof.
  split.
  - exact (proj1 (queryDepositAddress_without_address
                    (self := exchange (json_reply "{'result':'true'}"))
                    "Deposit" (VStr "XRP") (VObj []) idle idle idle (sent xrp_address idle)
                    (VObj [("id", VStr "xrp"); ("code", VStr "XRP")]) (VStr "xrp")
                    (VObj [("result", VStr "true")])
                    eq_refl eq_refl eq_refl ltac:(run) eq_refl) eq_refl).
  - destruct (proj2 (queryDepositAddress_without_address
                       (self := exchange (json_reply "{'result':'true'}"))
                       "Deposit" (VStr "BTC") (VObj []) idle idle idle
                       (sent deposit_address idle)
                       (VObj [("id", VStr "btc"); ("code", VStr "BTC")]) (VStr "btc")
                       (VObj [("result", VStr "true")])
                       eq_refl eq_refl eq_refl ltac:(run) eq_refl) eq_refl)
      as (r & Hrun & _ & _ & Hstatus).
    exists r. split; [exact Hrun|exact Hstatus].
Defined.

End Examples.
